(** * Chatterbox integration tests: the harness, its report and the watermarker patch

    A shallow embedding of the bookkeeping code of
    [integration_tests/integration_test_suite.py],
    [integration_tests/run_integration_tests.py] and
    [integration_tests/patched_test.py].

    Python floats are IEEE 754 binary64 numbers and are modelled by Rocq's
    primitive floats, so arithmetic on them evaluates to the very bits
    CPython produces.  The interpreter state the scripts read and write
    (clock, process memory, CUDA allocator, file system, standard output) is
    an explicit [World] record threaded through every call. *)

From Stdlib Require Import ZArith List String Bool Floats Uint63 QArith Qabs Lia.
From Stdlib Require Import Ascii DecimalString.
Import ListNotations.

Local Open Scope string_scope.
Local Open Scope Z_scope.

(** ** The fragment of Python the scripts rely on *)

Module Py.

(** A raised exception, with its class name and what [str(e)] gives: an
    instance of [Exception], or an instance of a class outside [Exception]
    ([SystemExit], [KeyboardInterrupt], [GeneratorExit]), which [except
    Exception] does not catch and which carries the status the interpreter
    exits with when nothing catches it. *)
Inductive exception : Type :=
| Exc (class_name : string) (message : string)
| Exit (class_name : string) (message : string) (status : Z).

Definition exc_class (e : exception) : string :=
  match e with Exc c _ => c | Exit c _ _ => c end.

Definition str (e : exception) : string :=
  match e with Exc _ m => m | Exit _ m _ => m end.

(** [isinstance(e, Exception)] *)
Definition is_Exception (e : exception) : bool :=
  match e with Exc _ _ => true | Exit _ _ _ => false end.

(** The exit status of the interpreter when [e] reaches the top level: 1
    after the traceback of an [Exception], the exception's own status
    otherwise. *)
Definition uncaught_status (e : exception) : Z :=
  match e with Exc _ _ => 1 | Exit _ _ status => status end.

(** [str(i)] *)
Definition str_int (i : Z) : string := NilZero.string_of_int (Z.to_int i).

(** What [sys.exit(code)] raises for an int [code]. *)
Definition SystemExit (code : Z) : exception :=
  Exit "SystemExit" (str_int code) (code mod 256).

Definition ZeroDivisionError : exception :=
  Exc "ZeroDivisionError" "division by zero".

Definition OSError (path : string) : exception := Exc "OSError" path.

Definition ImportError (module_name : string) : exception :=
  Exc "ImportError" module_name.

(** A call either returns a value or raises. *)
Inductive result (A : Type) : Type :=
| Ok (a : A)
| Raise (e : exception).
Arguments Ok {A} a.
Arguments Raise {A} e.

Definition returns {A : Type} (r : result A) : bool :=
  match r with Ok _ => true | Raise _ => false end.

(** Whether [try: ... except Exception] around a call with this outcome
    keeps what it raises, if anything, from going further. *)
Definition contained {A : Type} (r : result A) : bool :=
  match r with Ok _ => true | Raise e => is_Exception e end.

(** [float(z)] for an integer of at most 63 bits, rounded to nearest. *)
Definition float_of_int (z : Z) : float :=
  if z <? 0 then PrimFloat.opp (PrimFloat.of_uint63 (Uint63.of_Z (- z)))
  else PrimFloat.of_uint63 (Uint63.of_Z z).

(** An int as an exact binary float of unbounded precision. *)
Definition exact (z : Z) : spec_float :=
  match z with
  | Z0 => S754_zero false
  | Zpos p => S754_finite false p 0
  | Zneg p => S754_finite true p 0
  end.

(** The float [a / b] evaluates to for two ints with [b] not zero (CPython's
    [long_true_divide]): the exact quotient rounded once, to the nearest
    double, ties to even; a zero dividend gives a zero with the sign of the
    divisor.  A quotient beyond the largest double comes out as an infinity
    here, where CPython raises [OverflowError]. *)
Definition int_quotient (a b : Z) : float :=
  SF2Prim (SFdiv prec emax (exact a) (exact b)).

(** [a / b] on two ints: a zero divisor raises [ZeroDivisionError]. *)
Definition int_truediv (a b : Z) : result float :=
  if b =? 0 then Raise ZeroDivisionError else Ok (int_quotient a b).

(** [x / n] and [x * n] for a float [x] and a non-zero int literal [n]. *)
Definition float_div_int (x : float) (n : Z) : float :=
  PrimFloat.div x (float_of_int n).

Definition float_mul_int (x : float) (n : Z) : float :=
  PrimFloat.mul x (float_of_int n).

(** Truth value of an [Optional[float]]: [None] and both zeros are false,
    every other float (NaN included) is true. *)
Definition truthy (x : option float) : bool :=
  match x with
  | None => false
  | Some f => negb (PrimFloat.eqb f PrimFloat.zero)
  end.

(** [len(l)], and the truth value of a list: false exactly when it is
    empty. *)
Definition len {A : Type} (l : list A) : Z := Z.of_nat (List.length l).

Definition nonempty {A : Type} (l : list A) : bool :=
  match l with [] => false | _ :: _ => true end.

(** The numbers that end up in a summary: an [int] or a [float]. *)
Inductive number : Type :=
| Int (z : Z)
| Float (f : float).

(** JSON-like values carried by a check's payload ([Dict[str, Any]]). *)
#[local] Unset Elimination Schemes.
Inductive value : Type :=
| VNone
| VBool (b : bool)
| VInt (z : Z)
| VFloat (f : float)
| VStr (s : string)
| VList (items : list value)
| VDict (items : list (string * value)).
#[local] Set Elimination Schemes.

Definition dict : Type := list (string * value).

(** [tuple[-1]]: the last entry, [IndexError] on the empty tuple. *)
Definition IndexError (kind : string) : exception :=
  Exc "IndexError" (kind ++ " index out of range").

Definition last_item (t : list Z) : result Z :=
  match rev t with
  | [] => Raise (IndexError "tuple")
  | x :: _ => Ok x
  end.

(** [x - None] for a float [x]. *)
Definition TypeError_sub_None : exception :=
  Exc "TypeError" "unsupported operand type(s) for -: 'float' and 'NoneType'".

(** [d[key]] on a dictionary that holds [key] at most once. *)
Definition get (d : dict) (key : string) : option value :=
  match find (fun kv => String.eqb (fst kv) key) d with
  | Some kv => Some (snd kv)
  | None => None
  end.

(** [v[key]] on a value that is a dictionary. *)
Definition item (key : string) (v : value) : option value :=
  match v with
  | VDict fields => get fields key
  | _ => None
  end.

(** [list(d.keys())] *)
Definition keys (d : dict) : list string := map fst d.

(** [range(n)] and [s * n]. *)
Definition range (n : nat) : list Z := map Z.of_nat (seq 0 n).

Fixpoint repeat_str (s : string) (n : nat) : string :=
  match n with
  | O => ""
  | S n => s ++ repeat_str s n
  end.

(** An [Optional[float]] as a JSON value. *)
Definition of_optional (x : option float) : value :=
  match x with Some f => VFloat f | None => VNone end.

(** The exact rational a finite float denotes. *)
Definition Q_of_float (f : float) : option Q :=
  match Prim2SF f with
  | S754_zero _ => Some 0%Q
  | S754_finite s m e =>
      let mant := if s then Z.neg m else Z.pos m in
      Some (if e <? 0 then Qmake mant (Z.to_pos (2 ^ (- e)))
            else inject_Z (mant * 2 ^ e))
  | _ => None
  end.

End Py.

(** ** What the scripts observe of the machine they run on *)

(** The [TestResult] dataclass of integration_test_suite.py; [asdict] of it
    is what the report file lists. *)
Record TestResult : Type := mkTestResult {
  test_name : string;
  success : bool;
  execution_time : float;
  memory_usage_mb : float;
  gpu_memory_mb : option float;
  output_info : Py.dict;
  error_message : option string
}.

Record TestSummary : Type := mkTestSummary {
  total_tests : Z;
  successful_tests : Z;
  failed_tests : Z;
  success_rate : float
}.

Record PerformanceSummary : Type := mkPerformanceSummary {
  avg_execution_time : Py.number;
  max_execution_time : Py.number;
  avg_memory_usage_mb : Py.number;
  max_memory_usage_mb : Py.number
}.

Record DeviceInfo : Type := mkDeviceInfo {
  info_device : string;
  info_cuda_available : bool;
  info_mps_available : bool
}.

(** The dictionary [generate_summary_report] builds and returns; its key
    ["failed_tests"] is the field [failed_tests_list] here, the name
    [failed_tests] being taken by the count inside [test_summary]. *)
Record Summary : Type := mkSummary {
  test_summary : TestSummary;
  performance_summary : PerformanceSummary;
  failed_tests_list : list (string * option string);
  device_info : DeviceInfo
}.

(** What [json.dump] writes to the report file. *)
Record Report : Type := mkReport {
  report_summary : Summary;
  detailed_results : list TestResult
}.

(** One line (or block) of diagnostic output, before formatting. *)
Inductive output : Type :=
| Line (text : string)
| Running (test_name : string)
| TestFailed (error_message : string)
| Traceback (e : Py.exception)
| Completed (execution_time : float)
| SummaryLines (s : Summary) (report_path : string)
| KeyMetrics (s : Summary)
| Installed (req : string)
| InstallFailed (req : string).

(** The state of the machine.  [cuda] is [None] when
    [torch.cuda.is_available()] is false and otherwise holds
    [torch.cuda.memory_allocated()]; [model_tts] is the lazily loaded model
    the checks share; [files] holds the reports written so far, under the
    path they were opened with; [writable] and [mkdir_ok] say which paths
    [open(.., 'w')] and [Path.mkdir(exist_ok=True)] accept; [importable]
    says which modules an [import] finds. *)
Record World : Type := mkWorld {
  now : float;
  rss : Z;
  cuda : option Z;
  mps_available : bool;
  model_tts : bool;
  files : list (string * Report);
  writable : string -> bool;
  mkdir_ok : string -> bool;
  path_exists : string -> bool;
  importable : string -> bool;
  stdout : list output
}.

Definition print (o : output) (w : World) : World :=
  mkWorld (now w) (rss w) (cuda w) (mps_available w) (model_tts w) (files w)
          (writable w) (mkdir_ok w) (path_exists w) (importable w)
          (stdout w ++ [o]).

(** Printing a sequence of lines. *)
Definition print_all (lines : list output) (w : World) : World :=
  fold_left (fun w o => print o w) lines w.

(** The file system once [path] holds the report [r], whatever it held
    before. *)
Definition write_file (path : string) (r : Report) (w : World) : World :=
  mkWorld (now w) (rss w) (cuda w) (mps_available w) (model_tts w)
          ((path, r) :: filter (fun f => negb (String.eqb (fst f) path)) (files w))
          (writable w) (mkdir_ok w) (path_exists w) (importable w)
          (stdout w).

(** [with open(path, 'w') as f: json.dump(report, f, ...)]: the file is
    replaced when the path can be opened for writing, [OSError] otherwise. *)
Definition dump_to (path : string) (r : Report) (w : World) : Py.result unit * World :=
  if writable w path then (Py.Ok tt, write_file path r w)
  else (Py.Raise (Py.OSError path), w).

(** What a later [open(path)] would find: the report last written to [path],
    if any. *)
Definition file_at (path : string) (w : World) : option Report :=
  match find (fun f => String.eqb (fst f) path) (files w) with
  | Some f => Some (snd f)
  | None => None
  end.

Definition time_time (w : World) : float := now w.

Definition cuda_is_available (w : World) : bool :=
  match cuda w with Some _ => true | None => false end.

(** The pieces of a path between its slashes, [cur] being the piece read so
    far. *)
Fixpoint split_slash (s cur : string) : list string :=
  match s with
  | EmptyString => [cur]
  | String c s =>
      if Ascii.eqb c "/"%char then cur :: split_slash s ""
      else split_slash s (cur ++ String c EmptyString)
  end.

Fixpoint leading_slashes (s : string) : nat :=
  match s with
  | String c s => if Ascii.eqb c "/"%char then S (leading_slashes s) else O
  | EmptyString => O
  end.

(** The root and the parts [pathlib] keeps of a POSIX path: exactly two
    leading slashes stay two, any other number is one; empty pieces and
    [.] are dropped, [..] is kept. *)
Definition path_root (s : string) : string :=
  match leading_slashes s with
  | O => ""
  | 2%nat => "//"
  | _ => "/"
  end.

Definition path_parts (s : string) : list string :=
  filter (fun c => negb (String.eqb c "") && negb (String.eqb c "."))
         (split_slash s "").

(** [str(path)] of a path with the given root and parts. *)
Definition path_str (root : string) (parts : list string) : string :=
  match root, parts with
  | EmptyString, [] => "."
  | _, _ => root ++ String.concat "/" parts
  end.

(** [str(Path(dir) / name)]: an absolute [name] replaces [dir]. *)
Definition path_join (dir name : string) : string :=
  match path_root name with
  | EmptyString => path_str (path_root dir) (path_parts dir ++ path_parts name)
  | root => path_str root (path_parts name)
  end.

(** A check procedure: a zero-argument callable that returns its payload or
    raises, changing the machine as it pleases.  What it raises may be an
    [Exception] or not ([sys.exit], Ctrl-C).  The checks of the suite read
    the tester's device and output directory and assign its model; the
    result list stays with the harness. *)
Definition procedure : Type := World -> Py.result Py.dict * World.

(** ** integration_test_suite.py *)

Module integration_test_suite.

(** The fields of [ChatterboxIntegrationTester] the harness itself owns. *)
Record ChatterboxIntegrationTester : Type := mkTester {
  device : string;
  output_dir : string;
  results : list TestResult
}.

(** The bound methods [run_all_tests] hands to [_run_test]; their bodies call
    the external speech model. *)
Record TestMethods : Type := mkTestMethods {
  test_model_loading : procedure;
  test_basic_tts : procedure;
  test_parameter_variations : procedure;
  test_text_variations : procedure;
  test_performance_benchmarks : procedure;
  test_memory_usage_patterns : procedure;
  test_edge_cases : procedure;
  test_concurrent_usage : procedure;
  test_api_consistency : procedure
}.

(** The names [run_all_tests] gives the checks, and the checks, in the order
    it runs them. *)
Definition battery_names : list string :=
  ["Model Loading"; "Basic TTS"; "Parameter Variations"; "Text Variations";
   "Performance Benchmarks"; "Memory Usage Patterns"; "Edge Cases";
   "Concurrent Usage"; "API Consistency"].

Definition battery_checks (tests : TestMethods) : list procedure :=
  [test_model_loading tests; test_basic_tts tests; test_parameter_variations tests;
   test_text_variations tests; test_performance_benchmarks tests;
   test_memory_usage_patterns tests; test_edge_cases tests;
   test_concurrent_usage tests; test_api_consistency tests].

Definition _detect_device (w : World) : string :=
  if cuda_is_available w then "cuda"
  else if mps_available w then "mps"
  else "cpu".

(** [ChatterboxIntegrationTester(device, output_dir)] *)
Definition __init__ (device output_dir : string) (w : World)
  : Py.result ChatterboxIntegrationTester * World :=
  let device := if String.eqb device "auto" then _detect_device w else device in
  if mkdir_ok w output_dir then
    (Py.Ok (mkTester device output_dir []),
     print (Line ("Output directory: " ++ output_dir))
       (print (Line ("Device: " ++ device))
          (print (Line "Initializing Chatterbox Integration Tester") w)))
  else (Py.Raise (Py.OSError output_dir), w).

Definition _get_memory_usage (w : World) : float * option float :=
  let ram_mb := Py.float_div_int (Py.int_quotient (rss w) 1024) 1024 in
  let gpu_mb :=
    match cuda w with
    | Some allocated => Some (Py.float_div_int (Py.int_quotient allocated 1024) 1024)
    | None => None
    end in
  (ram_mb, gpu_mb).

(** [end_gpu - start_gpu if end_gpu and start_gpu else None] *)
Definition gpu_delta (end_gpu start_gpu : option float) : option float :=
  if Py.truthy end_gpu && Py.truthy start_gpu then
    match end_gpu, start_gpu with
    | Some e, Some s => Some (PrimFloat.sub e s)
    | _, _ => None
    end
  else None.

(** [_run_test]: the handler is [except Exception], so what the procedure
    raises outside [Exception] leaves [_run_test] at once, with no result
    built or recorded. *)
Definition _run_test (test_name : string) (test_func : procedure)
    (self : ChatterboxIntegrationTester) (w : World)
  : Py.result TestResult * ChatterboxIntegrationTester * World :=
  let w := print (Running test_name) w in
  let start_time := time_time w in
  let '(start_ram, start_gpu) := _get_memory_usage w in
  let '(outcome, w) := test_func w in
  let handled :=
    match outcome with
    | Py.Ok output_info => Py.Ok (output_info, true, None, w)
    | Py.Raise e =>
        if Py.is_Exception e then
          Py.Ok ([], false, Some (Py.str e),
                 print (Traceback e) (print (TestFailed (Py.str e)) w))
        else Py.Raise e
    end in
  match handled with
  | Py.Raise e => (Py.Raise e, self, w)
  | Py.Ok (output_info, success, error_message, w) =>
      let end_time := time_time w in
      let '(end_ram, end_gpu) := _get_memory_usage w in
      let result :=
        mkTestResult test_name success
          (PrimFloat.sub end_time start_time)
          (PrimFloat.sub end_ram start_ram)
          (gpu_delta end_gpu start_gpu)
          output_info error_message in
      let self := mkTester (device self) (output_dir self) (results self ++ [result]) in
      let w := if success then print (Completed (execution_time result)) w else w in
      (Py.Ok result, self, w)
  end.

(** [self.output_dir / "integration_test_report.json"] *)
Definition report_path (self : ChatterboxIntegrationTester) : string :=
  path_join (output_dir self) "integration_test_report.json".

Section Numpy.

(** [np.mean] and [np.max] on a non-empty list of floats, as NumPy computes
    them. *)
Variables np_mean np_max : list float -> float.

(** The first half of [generate_summary_report]: the [summary] dictionary,
    built entry by entry in the order the literal lists them, so that the
    division of the success rate is evaluated first. *)
Definition compute_summary (self : ChatterboxIntegrationTester) (w : World)
  : Py.result Summary :=
  let successful := filter success (results self) in
  let failed := filter (fun r => negb (success r)) (results self) in
  let execution_times := map execution_time successful in
  let memory_usage := map memory_usage_mb successful in
  match Py.int_truediv (Py.len successful) (Py.len (results self)) with
  | Py.Raise e => Py.Raise e
  | Py.Ok ratio =>
      Py.Ok
        (mkSummary
           (mkTestSummary (Py.len (results self)) (Py.len successful) (Py.len failed)
              (Py.float_mul_int ratio 100))
           (mkPerformanceSummary
              (if Py.nonempty execution_times then Py.Float (np_mean execution_times) else Py.Int 0)
              (if Py.nonempty execution_times then Py.Float (np_max execution_times) else Py.Int 0)
              (if Py.nonempty memory_usage then Py.Float (np_mean memory_usage) else Py.Int 0)
              (if Py.nonempty memory_usage then Py.Float (np_max memory_usage) else Py.Int 0))
           (map (fun r => (test_name r, error_message r)) failed)
           (mkDeviceInfo (device self) (cuda_is_available w) (mps_available w)))
  end.

(** [generate_summary_report]: build the summary, save it with the detailed
    results, print it, return it. *)
Definition generate_summary_report (self : ChatterboxIntegrationTester) (w : World)
  : Py.result Summary * World :=
  match compute_summary self w with
  | Py.Raise e => (Py.Raise e, w)
  | Py.Ok summary =>
      let detailed := mkReport summary (results self) in
      match dump_to (report_path self) detailed w with
      | (Py.Raise e, w) => (Py.Raise e, w)
      | (Py.Ok _, w) => (Py.Ok summary, print (SummaryLines summary (report_path self)) w)
      end
  end.

(** One statement [self._run_test(name, check)] of [run_all_tests] followed
    by the rest of the method: what leaves [_run_test] leaves the method. *)
Definition then_run {A : Type}
    (step : Py.result TestResult * ChatterboxIntegrationTester * World)
    (rest : ChatterboxIntegrationTester -> World
            -> Py.result A * ChatterboxIntegrationTester * World)
  : Py.result A * ChatterboxIntegrationTester * World :=
  match step with
  | (Py.Ok _, self, w) => rest self w
  | (Py.Raise e, self, w) => (Py.Raise e, self, w)
  end.

Definition run_all_tests (tests : TestMethods) (self : ChatterboxIntegrationTester) (w : World)
  : Py.result Summary * ChatterboxIntegrationTester * World :=
  let w := print (Line "Starting Comprehensive Integration Test Suite") w in
  let w := print (Line "============================================================") w in
  then_run (_run_test "Model Loading" (test_model_loading tests) self w) (fun self w =>
  then_run (_run_test "Basic TTS" (test_basic_tts tests) self w) (fun self w =>
  then_run (_run_test "Parameter Variations" (test_parameter_variations tests) self w)
    (fun self w =>
  then_run (_run_test "Text Variations" (test_text_variations tests) self w) (fun self w =>
  then_run (_run_test "Performance Benchmarks" (test_performance_benchmarks tests) self w)
    (fun self w =>
  then_run (_run_test "Memory Usage Patterns" (test_memory_usage_patterns tests) self w)
    (fun self w =>
  then_run (_run_test "Edge Cases" (test_edge_cases tests) self w) (fun self w =>
  then_run (_run_test "Concurrent Usage" (test_concurrent_usage tests) self w) (fun self w =>
  then_run (_run_test "API Consistency" (test_api_consistency tests) self w) (fun self w =>
  let '(summary, w) := generate_summary_report self w in
  (summary, self, w)))))))))).

(** The options [parser.parse_args()] returns: [--device] (one of auto, cuda,
    mps, cpu; default auto) and [--output-dir] (default test_outputs). *)
Record Namespace : Type := mkNamespace {
  args_device : string;
  args_output_dir : string
}.

(** [main()] after the command line is parsed.  [psutil] was imported when
    the module was loaded, so the import in [main] finds it and the pip
    fallback is never taken.  Nothing is caught here: what [__init__] or
    [run_all_tests] raise leaves [main]. *)
Definition main (tests : TestMethods) (args : Namespace) (w : World)
  : Py.result Summary * World :=
  match __init__ (args_device args) (args_output_dir args) w with
  | (Py.Raise e, w) => (Py.Raise e, w)
  | (Py.Ok tester, w) =>
      let '(summary, _, w) := run_all_tests tests tester w in
      (summary, w)
  end.

(** The exit status of [python integration_test_suite.py]: the script ends
    with a bare [main()], so the summary is dropped and the status is 0
    unless an exception leaves [main]. *)
Definition script_status (tests : TestMethods) (args : Namespace) (w : World) : Z :=
  match fst (main tests args w) with
  | Py.Ok _ => 0
  | Py.Raise e => Py.uncaught_status e
  end.

End Numpy.

End integration_test_suite.

(** ** The checks of the suite that keep books of their own

    [test_edge_cases], [test_concurrent_usage], [test_api_consistency] and
    [test_memory_usage_patterns], over the speech model they call. *)

Module tester_methods.

Import integration_test_suite.

(** The keyword arguments [generate] is called with here. *)
Record generate_kwargs : Type := mkKwargs {
  exaggeration : option float;
  cfg_weight : option float;
  temperature : option float
}.

Definition no_kwargs : generate_kwargs := mkKwargs None None None.

(** [self.model_tts = model] *)
Definition set_model_tts (w : World) : World :=
  mkWorld (now w) (rss w) (cuda w) (mps_available w) true (files w)
          (writable w) (mkdir_ok w) (path_exists w) (importable w)
          (stdout w).

Section Model.

(** [ChatterboxTTS.from_pretrained(device)], the [sr] attribute of the model
    it returns, and [model.generate(text, **kwargs)], of whose waveform the
    checks read the [shape] only. *)
Variable from_pretrained : string -> World -> Py.result unit * World.
Variable sr : Z.
Variable generate : string -> generate_kwargs -> World -> Py.result (list Z) * World.

(** [np.mean] and [np.var] *)
Variables np_mean np_var : list float -> float.

(** The two lines every check below starts with:
    [if not self.model_tts: self.model_tts = ChatterboxTTS.from_pretrained(self.device)] *)
Definition ensure_model (self : ChatterboxIntegrationTester) (w : World)
  : Py.result unit * World :=
  if model_tts w then (Py.Ok tt, w)
  else
    match from_pretrained (device self) w with
    | (Py.Ok _, w) => (Py.Ok tt, set_model_tts w)
    | (Py.Raise e, w) => (Py.Raise e, w)
    end.

(** [wav.shape[-1] / self.model_tts.sr] *)
Definition audio_duration (shape : list Z) : Py.result float :=
  match Py.last_item shape with
  | Py.Ok samples => Py.int_truediv samples sr
  | Py.Raise e => Py.Raise e
  end.

(** [{"success": False, "error": str(e)}] *)
Definition edge_failure (e : Py.exception) : Py.value :=
  Py.VDict [("success", Py.VBool false); ("error", Py.VStr (Py.str e))].

(** One [try] block of [test_edge_cases]: the entry stored for the case; the
    fields between ["success"] and ["audio_duration"] are [middle].  The
    handler is [except Exception]: an exception of [generate] outside
    [Exception] leaves the block, and the check. *)
Definition edge_case (text : string) (kwargs : generate_kwargs) (middle : Py.dict)
    (w : World) : Py.result Py.value * World :=
  let '(body, w) :=
    match generate text kwargs w with
    | (Py.Ok shape, w) =>
        match audio_duration shape with
        | Py.Ok duration =>
            (Py.Ok (Py.VDict ([("success", Py.VBool true)] ++ middle
                              ++ [("audio_duration", Py.VFloat duration)])), w)
        | Py.Raise e => (Py.Raise e, w)
        end
    | (Py.Raise e, w) => (Py.Raise e, w)
    end in
  match body with
  | Py.Ok entry => (Py.Ok entry, w)
  | Py.Raise e =>
      if Py.is_Exception e then (Py.Ok (edge_failure e), w) else (Py.Raise e, w)
  end.

Definition test_edge_cases (self : ChatterboxIntegrationTester) : procedure := fun w =>
  match ensure_model self w with
  | (Py.Raise e, w) => (Py.Raise e, w)
  | (Py.Ok _, w) =>
      match edge_case "" no_kwargs [] w with
      | (Py.Raise e, w) => (Py.Raise e, w)
      | (Py.Ok empty_text, w) =>
      match edge_case "A" no_kwargs [] w with
      | (Py.Raise e, w) => (Py.Raise e, w)
      | (Py.Ok single_char, w) =>
      let long_text := Py.repeat_str "This is a very long text. " 100 in
      match edge_case long_text no_kwargs
              [("text_length", Py.VInt (Z.of_nat (String.length long_text)))] w with
      | (Py.Raise e, w) => (Py.Raise e, w)
      | (Py.Ok very_long_text, w) =>
      match edge_case "Testing extreme parameters."
              (mkKwargs (Some 2%float) (Some 1%float) (Some 2%float)) [] w with
      | (Py.Raise e, w) => (Py.Raise e, w)
      | (Py.Ok extreme_params, w) =>
          (Py.Ok [("empty_text", empty_text); ("single_char", single_char);
                  ("very_long_text", very_long_text);
                  ("extreme_params", extreme_params)],
           w)
      end end end end
  end.

(** The loop of [test_concurrent_usage] over [enumerate(texts)]. *)
Fixpoint concurrent_calls (calls : list (Z * string)) (w : World)
  : Py.result (list Py.value) * World :=
  match calls with
  | [] => (Py.Ok [], w)
  | (i, text) :: calls =>
      let call_start := time_time w in
      match generate text no_kwargs w with
      | (Py.Raise e, w) => (Py.Raise e, w)
      | (Py.Ok shape, w) =>
          let call_end := time_time w in
          match audio_duration shape with
          | Py.Raise e => (Py.Raise e, w)
          | Py.Ok duration =>
              let entry :=
                Py.VDict [("call_index", Py.VInt i);
                          ("generation_time", Py.VFloat (PrimFloat.sub call_end call_start));
                          ("audio_duration", Py.VFloat duration)] in
              match concurrent_calls calls w with
              | (Py.Ok entries, w) => (Py.Ok (entry :: entries), w)
              | (Py.Raise e, w) => (Py.Raise e, w)
              end
          end
      end
  end.

Definition test_concurrent_usage (self : ChatterboxIntegrationTester) : procedure := fun w =>
  match ensure_model self w with
  | (Py.Raise e, w) => (Py.Raise e, w)
  | (Py.Ok _, w) =>
      let texts :=
        map (fun i => "Concurrent test number " ++ Py.str_int i ++ ".") (Py.range 5) in
      let start_time := time_time w in
      match concurrent_calls (combine (Py.range (List.length texts)) texts) w with
      | (Py.Raise e, w) => (Py.Raise e, w)
      | (Py.Ok results, w) =>
          let total_time := PrimFloat.sub (time_time w) start_time in
          (Py.Ok [("total_calls", Py.VInt (Py.len texts));
                  ("total_time", Py.VFloat total_time);
                  ("avg_time_per_call",
                   Py.VFloat (Py.float_div_int total_time (Py.len texts)));
                  ("individual_results", Py.VList results)],
           w)
      end
  end.

(** One run of [test_api_consistency]: its index, the shape and the duration. *)
Record consistency_run : Type := mkRun {
  run : Z;
  shape : list Z;
  duration : float
}.

Definition run_entry (r : consistency_run) : Py.value :=
  Py.VDict [("run", Py.VInt (run r)); ("shape", Py.VList (map Py.VInt (shape r)));
            ("duration", Py.VFloat (duration r))].

(** The loop of [test_api_consistency] over [range(3)]. *)
Fixpoint consistency_runs (text : string) (indices : list Z) (w : World)
  : Py.result (list consistency_run) * World :=
  match indices with
  | [] => (Py.Ok [], w)
  | i :: indices =>
      match generate text (mkKwargs None None (Some 0x1.999999999999ap-4%float)) w with
      | (Py.Raise e, w) => (Py.Raise e, w)
      | (Py.Ok wav_shape, w) =>
          match audio_duration wav_shape with
          | Py.Raise e => (Py.Raise e, w)
          | Py.Ok d =>
              match consistency_runs text indices w with
              | (Py.Ok runs, w) => (Py.Ok (mkRun i wav_shape d :: runs), w)
              | (Py.Raise e, w) => (Py.Raise e, w)
              end
          end
      end
  end.

(** [a == b] on two shapes. *)
Definition shape_eqb (a b : list Z) : bool :=
  if list_eq_dec Z.eq_dec a b then true else false.

(** [all(r["shape"] == results[0]["shape"] for r in results)] *)
Definition shapes_consistent (results : list consistency_run) : bool :=
  match results with
  | [] => true
  | first :: _ => forallb (fun r => shape_eqb (shape r) (shape first)) results
  end.

Definition test_api_consistency (self : ChatterboxIntegrationTester) : procedure := fun w =>
  match ensure_model self w with
  | (Py.Raise e, w) => (Py.Raise e, w)
  | (Py.Ok _, w) =>
      match consistency_runs "Testing API consistency." (Py.range 3) w with
      | (Py.Raise e, w) => (Py.Raise e, w)
      | (Py.Ok results, w) =>
          let durations := map duration results in
          (Py.Ok [("runs", Py.VList (map run_entry results));
                  ("shapes_consistent", Py.VBool (shapes_consistent results));
                  ("duration_variance", Py.VFloat (np_var durations));
                  ("avg_duration", Py.VFloat (np_mean durations))],
           w)
      end
  end.

(** One entry of [memory_snapshots]. *)
Record memory_snapshot : Type := mkSnapshot {
  iteration : Z;
  ram_mb : float;
  gpu_mb : option float
}.

Definition snapshot_entry (m : memory_snapshot) : Py.value :=
  Py.VDict [("iteration", Py.VInt (iteration m)); ("ram_mb", Py.VFloat (ram_mb m));
            ("gpu_mb", Py.of_optional (gpu_mb m))].

(** The loop of [test_memory_usage_patterns] over [range(5)]. *)
Fixpoint take_snapshots (text : string) (baseline_ram : float) (baseline_gpu : option float)
    (indices : list Z) (w : World) : Py.result (list memory_snapshot) * World :=
  match indices with
  | [] => (Py.Ok [], w)
  | i :: indices =>
      match generate text no_kwargs w with
      | (Py.Raise e, w) => (Py.Raise e, w)
      | (Py.Ok _, w) =>
          let '(ram, gpu) := _get_memory_usage w in
          let snapshot :=
            mkSnapshot i (PrimFloat.sub ram baseline_ram) (gpu_delta gpu baseline_gpu) in
          match take_snapshots text baseline_ram baseline_gpu indices w with
          | (Py.Ok snapshots, w) => (Py.Ok (snapshot :: snapshots), w)
          | (Py.Raise e, w) => (Py.Raise e, w)
          end
      end
  end.

(** The ["memory_growth"] entry: the RAM growth, and
    [last - first if last is not None else None] on the GPU figures, where a
    [None] first figure under a last one that is not makes the subtraction
    raise. *)
Definition memory_growth (first last : memory_snapshot) : Py.result Py.value :=
  let ram := PrimFloat.sub (ram_mb last) (ram_mb first) in
  match gpu_mb last with
  | None => Py.Ok (Py.VDict [("ram_mb", Py.VFloat ram); ("gpu_mb", Py.VNone)])
  | Some l =>
      match gpu_mb first with
      | Some f =>
          Py.Ok (Py.VDict [("ram_mb", Py.VFloat ram);
                           ("gpu_mb", Py.VFloat (PrimFloat.sub l f))])
      | None => Py.Raise Py.TypeError_sub_None
      end
  end.

Definition test_memory_usage_patterns (self : ChatterboxIntegrationTester) : procedure :=
  fun w =>
  match ensure_model self w with
  | (Py.Raise e, w) => (Py.Raise e, w)
  | (Py.Ok _, w) =>
      let text := "Testing memory usage patterns during text to speech generation." in
      let '(baseline_ram, baseline_gpu) := _get_memory_usage w in
      match take_snapshots text baseline_ram baseline_gpu (Py.range 5) w with
      | (Py.Raise e, w) => (Py.Raise e, w)
      | (Py.Ok memory_snapshots, w) =>
          match memory_snapshots, rev memory_snapshots with
          | first :: _, last :: _ =>
              match memory_growth first last with
              | Py.Ok growth =>
                  (Py.Ok [("baseline_ram_mb", Py.VFloat baseline_ram);
                          ("baseline_gpu_mb", Py.of_optional baseline_gpu);
                          ("memory_snapshots", Py.VList (map snapshot_entry memory_snapshots));
                          ("memory_growth", growth)],
                   w)
              | Py.Raise e => (Py.Raise e, w)
              end
          | _, _ => (Py.Raise (Py.IndexError "list"), w)
          end
      end
  end.

End Model.

End tester_methods.

(** ** run_integration_tests.py *)

Module run_integration_tests.

Import integration_test_suite.

Definition requirements : list string :=
  ["chatterbox-tts"; "psutil"; "numpy"; "torch"; "torchaudio"].

Section Runner.

(** [subprocess.check_call([sys.executable, "-m", "pip", "install", req], ...)]:
    pip runs as a child process and leaves the machine as it pleases; a
    non-zero exit status is the exception [CalledProcessError]. *)
Variable pip_install : string -> World -> Py.result unit * World.

Variables np_mean np_max : list float -> float.

(** The methods of the tester class the import brings in. *)
Variable tests : TestMethods.

(** [Path(__file__).parent] *)
Variable here : string.

(** The loop of [install_requirements]: the first package on which pip exits
    with a failure ends it with [False]; the handler is [except
    subprocess.CalledProcessError], so any other exception leaves the
    function. *)
Fixpoint install_each (reqs : list string) (w : World) : Py.result bool * World :=
  match reqs with
  | [] => (Py.Ok true, w)
  | req :: reqs =>
      match pip_install req w with
      | (Py.Ok _, w) => install_each reqs (print (Installed req) w)
      | (Py.Raise e, w) =>
          if String.eqb (Py.exc_class e) "CalledProcessError"
          then (Py.Ok false, print (InstallFailed req) w)
          else (Py.Raise e, w)
      end
  end.

Definition install_requirements (w : World) : Py.result bool * World :=
  install_each requirements (print (Line "Installing required packages...") w).

(** The first statements of the [try] block of [main]: import the suite,
    build a tester with the default arguments and run the battery. *)
Definition run_battery (w : World)
  : Py.result (ChatterboxIntegrationTester * Summary) * World :=
  if importable w "integration_test_suite" then
    match __init__ "auto" "test_outputs" w with
    | (Py.Raise e, w) => (Py.Raise e, w)
    | (Py.Ok tester, w) =>
        match run_all_tests np_mean np_max tests tester w with
        | (Py.Raise e, _, w) => (Py.Raise e, w)
        | (Py.Ok summary, tester, w) => (Py.Ok (tester, summary), w)
        end
    end
  else (Py.Raise (Py.ImportError "integration_test_suite"), w).

(** The whole [try] block of [main]: the value it returns, or the exception
    that leaves it. *)
Definition main_try (w : World) : Py.result Z * World :=
  match run_battery w with
  | (Py.Raise e, w) => (Py.Raise e, w)
  | (Py.Ok (_, summary), w) =>
      let w := print (Line "==================================================") w in
      let w := print (Line "INTEGRATION TEST RESULTS") w in
      let w := print (Line "==================================================") w in
      let w :=
        if failed_tests (test_summary summary) =? 0 then
          print (Line "The system is ready for integration")
            (print (Line "ALL TESTS PASSED!") w)
        else print (Line "Some tests failed - review before integration") w in
      let w := print (KeyMetrics summary) w in
      (Py.Ok (if failed_tests (test_summary summary) =? 0 then 0 else 1), w)
  end.

(** [main()]: the value it returns, or the exception that leaves it.  The
    handler around the battery is [except Exception]; [install_requirements]
    is called outside it. *)
Definition main (w : World) : Py.result Z * World :=
  let w := print (Line "Chatterbox TTS Integration Test Runner") w in
  let w := print (Line "==================================================") w in
  let test_suite_path := path_join here "integration_test_suite.py" in
  if negb (path_exists w test_suite_path) then
    (Py.Ok 1,
     print (Line "Please ensure the test suite file is in the integration_tests directory.")
       (print (Line "integration_test_suite.py not found!") w))
  else
    match install_requirements w with
    | (Py.Raise e, w) => (Py.Raise e, w)
    | (Py.Ok false, w) => (Py.Ok 1, print (Line "Failed to install requirements") w)
    | (Py.Ok true, w) =>
        let w := print (Line "Starting integration tests...") w in
        match main_try w with
        | (Py.Ok code, w) => (Py.Ok code, w)
        | (Py.Raise e, w) =>
            if Py.is_Exception e then
              (Py.Ok 1,
               print (Traceback e) (print (Line ("Test execution failed: " ++ Py.str e)) w))
            else (Py.Raise e, w)
        end
    end.


End Runner.

End run_integration_tests.

(** ** patched_test.py *)

Module patched_test.

(** A class object, known by its name. *)
Record class_object : Type := Class { class_name : string }.

(** The two attributes of the [perth] module the script touches; [None] is
    Python's [None]. *)
Record perth_module : Type := mkPerth {
  PerthImplicitWatermarker : option class_object;
  DummyWatermarker : option class_object
}.

(** The module-level statement that runs when the script is loaded. *)
Definition patch (perth : perth_module) (w : World) : perth_module * World :=
  match PerthImplicitWatermarker perth with
  | None =>
      (mkPerth (DummyWatermarker perth) (DummyWatermarker perth),
       print (Line "Patching PerthImplicitWatermarker with DummyWatermarker") w)
  | Some _ => (perth, w)
  end.

End patched_test.

(** * Sample runs

    Concrete machines and procedures on which the definitions above are
    evaluated. *)

Module Samples.

Import integration_test_suite.

Definition MB : Z := 1048576.

(** A CUDA machine on which nothing has been allocated on the GPU yet. *)
Definition idle_world : World :=
  mkWorld 10 (100 * MB) (Some 0) false false []
          (fun _ => true) (fun _ => true) (fun _ => true) (fun _ => true) [].

(** A machine without CUDA. *)
Definition cpu_world : World :=
  mkWorld 10 (100 * MB) None false false []
          (fun _ => true) (fun _ => true) (fun _ => true) (fun _ => true) [].

(** The same machine with a read-only file system. *)
Definition readonly_world : World :=
  mkWorld 10 (100 * MB) None false false []
          (fun _ => false) (fun _ => true) (fun _ => true) (fun _ => true) [].

(** A check that takes two seconds, loads the model, and grows resident
    memory by 2 MB and GPU memory (where there is a GPU) by 3000 MB. *)
Definition load_model : procedure := fun w =>
  (Py.Ok [("model_loaded", Py.VBool true)],
   mkWorld (PrimFloat.add (now w) 2) (rss w + 2 * MB)
           (match cuda w with Some a => Some (a + 3000 * MB) | None => None end)
           (mps_available w) true (files w) (writable w) (mkdir_ok w)
           (path_exists w) (importable w) (stdout w)).

(** A check that fails after half a second. *)
Definition out_of_memory : procedure := fun w =>
  (Py.Raise (Py.Exc "RuntimeError" "CUDA out of memory"),
   mkWorld (PrimFloat.add (now w) 0.5) (rss w) (cuda w)
           (mps_available w) (model_tts w) (files w) (writable w) (mkdir_ok w)
           (path_exists w) (importable w) (stdout w)).

Definition fresh_tester : ChatterboxIntegrationTester :=
  mkTester "cpu" "test_outputs" [].

(** Straightforward stand-ins for [np.mean] and [np.max]. *)
Definition mean (l : list float) : float :=
  PrimFloat.div (fold_left PrimFloat.add l PrimFloat.zero)
                (Py.float_of_int (Py.len l)).

Definition maximum (l : list float) : float :=
  match l with
  | [] => PrimFloat.nan
  | x :: l => fold_left (fun m y => if PrimFloat.ltb m y then y else m) l x
  end.

(** Results as [_run_test] records them on a machine without CUDA. *)
Definition passed (name : string) (seconds mb : float) : TestResult :=
  mkTestResult name true seconds mb None [] None.

Definition failed (name message : string) : TestResult :=
  mkTestResult name false 0.5 0 None [] (Some message).

(** A battery of nine results, two of them failures. *)
Definition nine_results : list TestResult :=
  [passed "Model Loading" 8 900; passed "Basic TTS" 2 16;
   failed "Parameter Variations" "CUDA out of memory";
   passed "Text Variations" 4 1; passed "Performance Benchmarks" 16 2;
   passed "Memory Usage Patterns" 4 8;
   failed "Edge Cases" "index out of range";
   passed "Concurrent Usage" 1 0; passed "API Consistency" 1 0].

(** A battery in which nothing succeeded. *)
Definition all_failed : list TestResult :=
  [failed "Model Loading" "no weights"; failed "Basic TTS" "no model"].

Definition nine_tester : ChatterboxIntegrationTester :=
  mkTester "cpu" "test_outputs" nine_results.

(** The same results held by a tester for another device and directory. *)
Definition nine_tester_cuda : ChatterboxIntegrationTester :=
  mkTester "cuda" "gpu_outputs" nine_results.

Definition failed_tester : ChatterboxIntegrationTester :=
  mkTester "cpu" "test_outputs" all_failed.

(** Bound methods of a tester on which every check passes, and of one whose
    edge-case check fails. *)
Definition passing_tests : TestMethods :=
  mkTestMethods load_model load_model load_model load_model load_model
                load_model load_model load_model load_model.

Definition one_failing_tests : TestMethods :=
  mkTestMethods load_model load_model load_model load_model load_model
                load_model out_of_memory load_model load_model.

(** The machines above with the model already loaded; on the CUDA one 512 MB
    are allocated. *)
Definition loaded_world : World :=
  mkWorld 10 (100 * MB) None false true []
          (fun _ => true) (fun _ => true) (fun _ => true) (fun _ => true) [].

Definition loaded_cuda_world : World :=
  mkWorld 10 (100 * MB) (Some (512 * MB)) false true []
          (fun _ => true) (fun _ => true) (fun _ => true) (fun _ => true) [].

(** A pip that installs every package, making it importable, and one that
    fails on torch. *)
Definition pip_works : string -> World -> Py.result unit * World := fun req w =>
  (Py.Ok tt,
   mkWorld (now w) (rss w) (cuda w) (mps_available w) (model_tts w) (files w)
           (writable w) (mkdir_ok w) (path_exists w)
           (fun m => String.eqb m req || importable w m) (stdout w)).

Definition pip_without_torch : string -> World -> Py.result unit * World := fun req w =>
  if String.eqb req "torch" then
    (Py.Raise (Py.Exc "CalledProcessError"
                 "Command returned non-zero exit status 1."), w)
  else pip_works req w.

(** A check that calls [sys.exit(0)], and the methods of a tester whose
    second check does so. *)
Definition exits_zero : procedure := fun w => (Py.Raise (Py.SystemExit 0), w).

Definition exiting_tests : TestMethods :=
  mkTestMethods load_model exits_zero load_model load_model load_model
                load_model load_model load_model load_model.

(** A model that loads, and three ways [generate] may behave: two seconds of
    audio at 24 kHz in half a second; an exception on every call; and a
    waveform together with a GPU allocator that is emptied by the first call
    and grows by 64 MB with each later one. *)
Definition load_weights : string -> World -> Py.result unit * World := fun _ w =>
  (Py.Ok tt, w).

Definition advance (seconds : float) (gpu : option Z) (w : World) : World :=
  mkWorld (PrimFloat.add (now w) seconds) (rss w) gpu
          (mps_available w) (model_tts w) (files w) (writable w) (mkdir_ok w)
          (path_exists w) (importable w) (stdout w).

Definition steady_generate
  : string -> tester_methods.generate_kwargs -> World -> Py.result (list Z) * World :=
  fun _ _ w => (Py.Ok [1; 48000], advance 0.5 (cuda w) w).

Definition failing_generate
  : string -> tester_methods.generate_kwargs -> World -> Py.result (list Z) * World :=
  fun _ _ w => (Py.Raise (Py.Exc "RuntimeError" "CUDA out of memory"), w).

Definition draining_generate
  : string -> tester_methods.generate_kwargs -> World -> Py.result (list Z) * World :=
  fun _ _ w =>
    (Py.Ok [1; 48000],
     advance 0.5
       (match cuda w with
        | Some allocated =>
            if allocated =? 512 * MB then Some 0 else Some (allocated + 64 * MB)
        | None => None
        end) w).

Definition variance (l : list float) : float :=
  let m := mean l in
  mean (map (fun x => PrimFloat.mul (PrimFloat.sub x m) (PrimFloat.sub x m)) l).

End Samples.

(** * Properties *)

Import integration_test_suite.

Local Open Scope list_scope.

(** ** The check runner *)

(** What [_run_test] computes when the procedure returns or raises an
    [Exception], with the world the procedure is entered in and the world it
    leaves named. *)
Lemma _run_test_eq (name : string) (f : procedure) (self : ChatterboxIntegrationTester)
    (w : World) (outcome : Py.result Py.dict) (w1 : World) :
  f (print (Running name) w) = (outcome, w1) ->
  Py.contained outcome = true ->
  let payload := match outcome with Py.Ok d => d | Py.Raise _ => [] end in
  let err := match outcome with Py.Ok _ => None | Py.Raise e => Some (Py.str e) end in
  let result :=
    mkTestResult name (Py.returns outcome)
      (PrimFloat.sub (now w1) (now w))
      (PrimFloat.sub (fst (_get_memory_usage w1)) (fst (_get_memory_usage w)))
      (gpu_delta (snd (_get_memory_usage w1)) (snd (_get_memory_usage w)))
      payload err in
  _run_test name f self w =
    (Py.Ok result,
     mkTester (device self) (output_dir self) (results self ++ [result]),
     match outcome with
     | Py.Ok _ => print (Completed (PrimFloat.sub (now w1) (now w))) w1
     | Py.Raise e => print (Traceback e) (print (TestFailed (Py.str e)) w1)
     end).
Proof.
  intros Hf Hc. unfold _run_test. rewrite Hf.
  destruct outcome as [d | e]; [reflexivity |].
  cbn [Py.contained] in Hc. rewrite Hc. reflexivity.
Qed.

(** What it does when the procedure raises outside [Exception]. *)
Lemma _run_test_escapes (name : string) (f : procedure) (self : ChatterboxIntegrationTester)
    (w w1 : World) (e : Py.exception) :
  f (print (Running name) w) = (Py.Raise e, w1) ->
  Py.is_Exception e = false ->
  _run_test name f self w = (Py.Raise e, self, w1).
Proof.
  intros Hf He. unfold _run_test. rewrite Hf, He. reflexivity.
Qed.

(** A result comes out of [_run_test] only on the first of these two paths. *)
Lemma _run_test_inv (name : string) (f : procedure) (self self' : ChatterboxIntegrationTester)
    (w w' : World) (result : TestResult) :
  _run_test name f self w = (Py.Ok result, self', w') ->
  Py.contained (fst (f (print (Running name) w))) = true.
Proof.
  destruct (f (print (Running name) w)) as [o w1] eqn:Hf. cbn [fst].
  destruct o as [d | e]; [reflexivity |].
  cbn [Py.contained]. destruct (Py.is_Exception e) eqn:He; [reflexivity |].
  rewrite (_run_test_escapes name f self w w1 e Hf He). discriminate.
Qed.

(** Every result that comes out of [_run_test] was built on the first
    path. *)
Lemma _run_test_result (name : string) (f : procedure)
    (self self' : ChatterboxIntegrationTester) (w w' : World) (result : TestResult) :
  _run_test name f self w = (Py.Ok result, self', w') ->
  exists (outcome : Py.result Py.dict) (w1 : World),
    f (print (Running name) w) = (outcome, w1) /\
    Py.contained outcome = true /\
    result =
      mkTestResult name (Py.returns outcome)
        (PrimFloat.sub (now w1) (now w))
        (PrimFloat.sub (fst (_get_memory_usage w1)) (fst (_get_memory_usage w)))
        (gpu_delta (snd (_get_memory_usage w1)) (snd (_get_memory_usage w)))
        (match outcome with Py.Ok d => d | Py.Raise _ => [] end)
        (match outcome with Py.Ok _ => None | Py.Raise e => Some (Py.str e) end) /\
    self' = mkTester (device self) (output_dir self) (results self ++ [result]).
Proof.
  intros Hrun.
  pose proof (_run_test_inv _ _ _ _ _ _ _ Hrun) as Hc.
  destruct (f (print (Running name) w)) as [o w1] eqn:Hf. cbn [fst] in Hc.
  pose proof (_run_test_eq name f self w o w1 Hf Hc) as Heq. cbv zeta in Heq.
  exists o, w1. repeat split; try assumption; congruence.
Qed.

(** X1: the three measurements of a check result: the elapsed time and the
    resident-memory delta are always the second sample minus the first; the
    GPU delta is that difference only when both samples exist and neither is
    zero, and is [None] otherwise. *)
Lemma _run_test_deltas (name : string) (f : procedure)
    (self self' : ChatterboxIntegrationTester) (w w' : World) (result : TestResult) :
  _run_test name f self w = (Py.Ok result, self', w') ->
  let w1 := snd (f (print (Running name) w)) in
  execution_time result = PrimFloat.sub (time_time w1) (time_time w) /\
  memory_usage_mb result =
    PrimFloat.sub (fst (_get_memory_usage w1)) (fst (_get_memory_usage w)) /\
  gpu_memory_mb result =
    match snd (_get_memory_usage w1), snd (_get_memory_usage w) with
    | Some e, Some s =>
        if PrimFloat.eqb e 0 || PrimFloat.eqb s 0 then None
        else Some (PrimFloat.sub e s)
    | _, _ => None
    end.
Proof.
  intros Hrun w1.
  destruct (_run_test_result _ _ _ _ _ _ _ Hrun) as (outcome & w1' & Hf & _ & -> & _).
  subst w1. rewrite Hf.
  cbn [fst snd execution_time memory_usage_mb gpu_memory_mb time_time].
  repeat split.
  unfold gpu_delta, Py.truthy.
  destruct (snd (_get_memory_usage w1')) as [e |], (snd (_get_memory_usage w)) as [s |];
    try reflexivity.
  - change PrimFloat.zero with 0%float.
    destruct (PrimFloat.eqb e 0), (PrimFloat.eqb s 0); reflexivity.
  - destruct (negb _); reflexivity.
Qed.

(** C2, as amended: [_run_test] applies the procedure once to the world it
    is entered in.  When the procedure returns, the result is a success
    carrying its payload; when it raises an [Exception], the result is a
    failure with an empty payload and the exception's text; in both cases
    the result is appended to the tester and nothing propagates.  When the
    procedure raises outside [Exception], the exception leaves [_run_test]:
    no result is built, the tester is unchanged and nothing more is
    printed. *)
Theorem run_test_returns_result (name : string) (f : procedure)
    (self : ChatterboxIntegrationTester) (w : World) :
  let entry := print (Running name) w in
  let outcome := fst (f entry) in
  let left := snd (f entry) in
  match outcome with
  | Py.Ok payload =>
      exists result : TestResult,
        _run_test name f self w =
          (Py.Ok result,
           mkTester (device self) (output_dir self) (results self ++ [result]),
           print (Completed (execution_time result)) left) /\
        test_name result = name /\ success result = true /\
        output_info result = payload /\ error_message result = None
  | Py.Raise e =>
      if Py.is_Exception e then
        exists result : TestResult,
          _run_test name f self w =
            (Py.Ok result,
             mkTester (device self) (output_dir self) (results self ++ [result]),
             print (Traceback e) (print (TestFailed (Py.str e)) left)) /\
          test_name result = name /\ success result = false /\
          output_info result = [] /\ error_message result = Some (Py.str e)
      else _run_test name f self w = (Py.Raise e, self, left)
  end.
Proof.
  intros entry outcome left. subst outcome left entry.
  destruct (f (print (Running name) w)) as [o w1] eqn:Hf. cbn [fst snd].
  destruct o as [payload | e].
  - pose proof (_run_test_eq name f self w _ w1 Hf eq_refl) as Hrun.
    cbv zeta in Hrun. rewrite Hrun.
    match goal with |- exists r, (Py.Ok ?R, _, _) = _ /\ _ => exists R end.
    repeat split.
  - destruct (Py.is_Exception e) eqn:He.
    + pose proof (_run_test_eq name f self w _ w1 Hf He) as Hrun.
      cbv zeta in Hrun. rewrite Hrun.
      match goal with |- exists r, (Py.Ok ?R, _, _) = _ /\ _ => exists R end.
      repeat split.
    + apply (_run_test_escapes name f self w w1 e Hf He).
Qed.

(** C4: in every result [_run_test] produces, [error_message] is not [None]
    exactly when [success] is false. *)
Theorem run_test_error_iff_failed (name : string) (f : procedure)
    (self self' : ChatterboxIntegrationTester) (w w' : World) (result : TestResult) :
  _run_test name f self w = (Py.Ok result, self', w') ->
  (error_message result <> None <-> success result = false).
Proof.
  intros Hrun.
  destruct (_run_test_result _ _ _ _ _ _ _ Hrun) as (o & w1 & _ & _ & -> & _).
  cbn [error_message success].
  destruct o as [payload | e]; cbn [Py.returns]; split; intros H;
    congruence.
Qed.

(** C5, evaluated where the claim and the code part: on a CUDA machine with
    nothing allocated before the check, the first GPU sample is 0.0, the
    second is 3000.0, and the recorded GPU delta is [None] instead of
    3000.0; elapsed time and resident memory are recorded as differences. *)
Theorem run_test_gpu_delta_lost_at_zero :
  let w1 := snd (Samples.load_model (print (Running "Model Loading") Samples.idle_world)) in
  exists result : TestResult,
    fst (fst (_run_test "Model Loading" Samples.load_model
                Samples.fresh_tester Samples.idle_world)) = Py.Ok result /\
    cuda_is_available Samples.idle_world = true /\
    cuda_is_available w1 = true /\
    snd (_get_memory_usage Samples.idle_world) = Some 0%float /\
    snd (_get_memory_usage w1) = Some 3000%float /\
    gpu_memory_mb result = None /\
    execution_time result = 2%float /\
    memory_usage_mb result = 2%float.
Proof.
  eexists. split; [vm_compute; reflexivity |].
  vm_compute. repeat split; reflexivity.
Qed.

(** ** The report generator *)

Section Report.

Variables np_mean np_max : list float -> float.

Lemma len_nonempty {A : Type} (l : list A) : l <> [] -> (Py.len l =? 0)%Z = false.
Proof.
  destruct l as [| x l]; [congruence |].
  intros _. unfold Py.len. apply Z.eqb_neq. cbn [List.length]. lia.
Qed.

Lemma len_filter_split (self : ChatterboxIntegrationTester) :
  (Py.len (filter success (results self))
   + Py.len (filter (fun r => negb (success r)) (results self))
   = Py.len (results self))%Z.
Proof.
  unfold Py.len. rewrite <- Nat2Z.inj_add. f_equal. apply filter_length.
Qed.

Lemma filter_none {A : Type} (p : A -> bool) (l : list A) :
  Forall (fun x => p x = false) l -> filter p l = [].
Proof.
  induction 1 as [| x l Hx _ IH]; cbn [filter]; [reflexivity |].
  rewrite Hx. exact IH.
Qed.

(** What a computed summary contains, field by field. *)
Lemma compute_summary_inv (self : ChatterboxIntegrationTester) (w : World) (s : Summary) :
  compute_summary np_mean np_max self w = Py.Ok s ->
  let ok := filter success (results self) in
  let ko := filter (fun r => negb (success r)) (results self) in
  test_summary s =
    mkTestSummary (Py.len (results self)) (Py.len ok) (Py.len ko)
      (Py.float_mul_int (Py.int_quotient (Py.len ok) (Py.len (results self))) 100) /\
  performance_summary s =
    mkPerformanceSummary
      (if Py.nonempty (map execution_time ok)
       then Py.Float (np_mean (map execution_time ok)) else Py.Int 0)
      (if Py.nonempty (map execution_time ok)
       then Py.Float (np_max (map execution_time ok)) else Py.Int 0)
      (if Py.nonempty (map memory_usage_mb ok)
       then Py.Float (np_mean (map memory_usage_mb ok)) else Py.Int 0)
      (if Py.nonempty (map memory_usage_mb ok)
       then Py.Float (np_max (map memory_usage_mb ok)) else Py.Int 0) /\
  failed_tests_list s = map (fun r => (test_name r, error_message r)) ko /\
  device_info s = mkDeviceInfo (device self) (cuda_is_available w) (mps_available w).
Proof.
  unfold compute_summary, Py.int_truediv.
  destruct (Py.len (results self) =? 0)%Z; [discriminate |].
  intros H. injection H as Hs. subst s.
  repeat split.
Qed.

(** The summary is computed for every non-empty list, on any machine. *)
Lemma compute_summary_returns (self : ChatterboxIntegrationTester) (w : World) :
  results self <> [] -> exists s, compute_summary np_mean np_max self w = Py.Ok s.
Proof.
  intros Hne. unfold compute_summary, Py.int_truediv.
  rewrite (len_nonempty _ Hne). eauto.
Qed.

Lemma compute_summary_empty (self : ChatterboxIntegrationTester) (w : World) :
  results self = [] ->
  compute_summary np_mean np_max self w = Py.Raise Py.ZeroDivisionError.
Proof.
  intros Hrs. unfold compute_summary, Py.int_truediv. rewrite Hrs. reflexivity.
Qed.

(** A returned summary is the computed one, and the report file was
    writable. *)
Lemma report_ok_inv (self : ChatterboxIntegrationTester) (w w' : World) (s : Summary) :
  generate_summary_report np_mean np_max self w = (Py.Ok s, w') ->
  compute_summary np_mean np_max self w = Py.Ok s /\
  writable w (report_path self) = true.
Proof.
  unfold generate_summary_report, dump_to.
  destruct (compute_summary _ _ self w) as [s0 | e]; [| discriminate].
  destruct (writable w (report_path self)); [| discriminate].
  intros H. injection H as -> _. split; reflexivity.
Qed.

(** The report generator has three outcomes: [ZeroDivisionError] on an empty
    list, [OSError] when the report file cannot be written, and a summary
    otherwise. *)
Lemma report_outcomes (self : ChatterboxIntegrationTester) (w : World) :
  match fst (generate_summary_report np_mean np_max self w) with
  | Py.Ok _ => results self <> [] /\ writable w (report_path self) = true
  | Py.Raise e =>
      (results self = [] /\ e = Py.ZeroDivisionError) \/
      (results self <> [] /\ writable w (report_path self) = false
       /\ e = Py.OSError (report_path self))
  end.
Proof.
  unfold generate_summary_report, dump_to.
  destruct (results self) as [| r rs] eqn:Hrs.
  - rewrite (compute_summary_empty self w Hrs). left. split; reflexivity.
  - assert (Hne : results self <> []) by congruence.
    destruct (compute_summary_returns self w Hne) as (s & ->).
    destruct (writable w (report_path self)); cbn [fst].
    + split; [congruence | reflexivity].
    + right. repeat split; congruence.
Qed.

(** On a non-empty list and a writable report path a summary is returned. *)
Lemma report_returns (self : ChatterboxIntegrationTester) (w : World) :
  results self <> [] -> writable w (report_path self) = true ->
  exists s w',
    compute_summary np_mean np_max self w = Py.Ok s /\
    generate_summary_report np_mean np_max self w = (Py.Ok s, w').
Proof.
  intros Hne Hw.
  destruct (compute_summary_returns self w Hne) as (s & Hs).
  unfold generate_summary_report, dump_to. rewrite Hs, Hw. eauto.
Qed.

(** C1, as the code behaves: on the empty result list the success-rate
    division raises [ZeroDivisionError] before any summary exists; no report
    is written and nothing is printed. *)
Theorem report_on_empty_raises (device output_dir : string) (w : World) :
  compute_summary np_mean np_max (mkTester device output_dir []) w
    = Py.Raise Py.ZeroDivisionError /\
  generate_summary_report np_mean np_max (mkTester device output_dir []) w
    = (Py.Raise Py.ZeroDivisionError, w).
Proof.
  assert (H : compute_summary np_mean np_max (mkTester device output_dir []) w
              = Py.Raise Py.ZeroDivisionError)
    by (apply compute_summary_empty; reflexivity).
  split; [exact H |].
  unfold generate_summary_report. rewrite H. reflexivity.
Qed.

(** C3: in every summary the report generator returns, the successful and
    failed counts add up to the total, and the total is the length of the
    result list. *)
Theorem report_counts_add_up (self : ChatterboxIntegrationTester) (w w' : World)
    (s : Summary) :
  generate_summary_report np_mean np_max self w = (Py.Ok s, w') ->
  (successful_tests (test_summary s) + failed_tests (test_summary s)
   = total_tests (test_summary s))%Z /\
  total_tests (test_summary s) = Py.len (results self).
Proof.
  intros Hs. apply report_ok_inv in Hs. destruct Hs as (Hs & _).
  destruct (compute_summary_inv _ _ _ Hs) as (T & _). rewrite T.
  cbn [test_summary successful_tests failed_tests total_tests].
  split; [apply len_filter_split | reflexivity].
Qed.

Lemma report_inv (self : ChatterboxIntegrationTester) (w w' : World) (s : Summary) :
  generate_summary_report np_mean np_max self w = (Py.Ok s, w') ->
  test_summary s =
    mkTestSummary (Py.len (results self))
      (Py.len (filter success (results self)))
      (Py.len (filter (fun r => negb (success r)) (results self)))
      (Py.float_mul_int
         (Py.int_quotient (Py.len (filter success (results self)))
                          (Py.len (results self))) 100).
Proof.
  intros Hs. apply report_ok_inv in Hs. destruct Hs as (Hs & _).
  exact (proj1 (compute_summary_inv _ _ _ Hs)).
Qed.

(** [generate_summary_report] spelled out over its three outcomes. *)
Lemma report_unfold (self : ChatterboxIntegrationTester) (w : World) :
  generate_summary_report np_mean np_max self w =
  match compute_summary np_mean np_max self w with
  | Py.Raise e => (Py.Raise e, w)
  | Py.Ok s =>
      if writable w (report_path self) then
        (Py.Ok s,
         print (SummaryLines s (report_path self))
           (write_file (report_path self) (mkReport s (results self)) w))
      else (Py.Raise (Py.OSError (report_path self)), w)
  end.
Proof.
  unfold generate_summary_report, dump_to.
  destruct (compute_summary _ _ self w) as [s | e]; [| reflexivity].
  destruct (writable w (report_path self)); reflexivity.
Qed.

(** Of the machine, the summary reads only whether CUDA and MPS are
    available. *)
Lemma compute_summary_same_machine (self : ChatterboxIntegrationTester) (w1 w2 : World) :
  cuda_is_available w1 = cuda_is_available w2 /\ mps_available w1 = mps_available w2 ->
  compute_summary np_mean np_max self w1 = compute_summary np_mean np_max self w2.
Proof.
  intros (Hc & Hm). unfold compute_summary. rewrite Hc, Hm. reflexivity.
Qed.

Lemma filter_twice {A : Type} (p : A -> bool) (l : list A) :
  filter p (filter p l) = filter p l.
Proof.
  induction l as [| x l IH]; cbn [filter]; [reflexivity |].
  destruct (p x) eqn:Hx; cbn [filter]; rewrite ?Hx, IH; reflexivity.
Qed.

(** A second call right after the first gives the same outcome and leaves
    the same files: the report neither reads what it wrote nor changes the
    tester. *)
Lemma report_twice (self : ChatterboxIntegrationTester) (w : World) :
  let first := generate_summary_report np_mean np_max self w in
  let second := generate_summary_report np_mean np_max self (snd first) in
  fst second = fst first /\ files (snd second) = files (snd first).
Proof.
  cbv zeta. rewrite (report_unfold self w).
  destruct (compute_summary np_mean np_max self w) as [s | e] eqn:Hs.
  2: { cbn [fst snd]. rewrite report_unfold, Hs. split; reflexivity. }
  destruct (writable w (report_path self)) eqn:Hw; cbn [fst snd].
  2: { rewrite report_unfold, Hs, Hw. split; reflexivity. }
  rewrite report_unfold.
  rewrite (compute_summary_same_machine self _ w) by (split; reflexivity).
  rewrite Hs. cbn [writable print write_file]. rewrite Hw.
  cbn [fst snd files print write_file filter]. rewrite String.eqb_refl. cbn [negb].
  rewrite filter_twice. split; reflexivity.
Qed.

(** The counts, the rate and the aggregates of a summary are determined by
    the result list alone: neither the device, the output directory nor the
    machine enters them. *)
Lemma report_depends_on_results (self1 self2 : ChatterboxIntegrationTester)
    (w1 w2 w1' w2' : World) (s1 s2 : Summary) :
  results self1 = results self2 ->
  generate_summary_report np_mean np_max self1 w1 = (Py.Ok s1, w1') ->
  generate_summary_report np_mean np_max self2 w2 = (Py.Ok s2, w2') ->
  test_summary s1 = test_summary s2 /\
  performance_summary s1 = performance_summary s2 /\
  failed_tests_list s1 = failed_tests_list s2.
Proof.
  intros Hrs H1 H2.
  apply report_ok_inv in H1, H2. destruct H1 as (H1 & _), H2 as (H2 & _).
  destruct (compute_summary_inv _ _ _ H1) as (T1 & P1 & F1 & _).
  destruct (compute_summary_inv _ _ _ H2) as (T2 & P2 & F2 & _).
  rewrite T1, T2, P1, P2, F1, F2, Hrs. repeat split.
Qed.

(** C7: the report is a function of the result list.  Calling it twice in a
    row on the same tester yields the very same outcome (and rewrites the
    same report file), and two calls on equal result lists, on whatever
    device or machine, agree on every count, rate and aggregate. *)
Theorem report_is_function_of_results :
  (forall (self : ChatterboxIntegrationTester) (w : World),
     let first := generate_summary_report np_mean np_max self w in
     let second := generate_summary_report np_mean np_max self (snd first) in
     fst second = fst first /\ files (snd second) = files (snd first)) /\
  (forall (self1 self2 : ChatterboxIntegrationTester) (w1 w2 w1' w2' : World)
          (s1 s2 : Summary),
     results self1 = results self2 ->
     generate_summary_report np_mean np_max self1 w1 = (Py.Ok s1, w1') ->
     generate_summary_report np_mean np_max self2 w2 = (Py.Ok s2, w2') ->
     test_summary s1 = test_summary s2 /\
     performance_summary s1 = performance_summary s2 /\
     failed_tests_list s1 = failed_tests_list s2).
Proof.
  split.
  - exact report_twice.
  - exact report_depends_on_results.
Qed.

(** C8: on nine results of which exactly two failed, a returned summary
    counts 9, 7 and 2, and its success rate is a finite float within 0.01 of
    77.78. *)
Theorem report_nine_with_two_failures (self : ChatterboxIntegrationTester)
    (w w' : World) (s : Summary) :
  List.length (results self) = 9%nat ->
  List.length (filter (fun r => negb (success r)) (results self)) = 2%nat ->
  generate_summary_report np_mean np_max self w = (Py.Ok s, w') ->
  total_tests (test_summary s) = 9%Z /\
  successful_tests (test_summary s) = 7%Z /\
  failed_tests (test_summary s) = 2%Z /\
  exists rate : Q,
    Py.Q_of_float (success_rate (test_summary s)) = Some rate /\
    (Qabs (rate - (7778 # 100)) <= (1 # 100))%Q.
Proof.
  intros Hall Hko Hs.
  assert (Hok : List.length (filter success (results self)) = 7%nat).
  { pose proof (filter_length success (results self)) as H. lia. }
  rewrite (report_inv _ _ _ _ Hs). unfold Py.len. rewrite Hall, Hko, Hok.
  cbn [total_tests successful_tests failed_tests success_rate].
  repeat split.
  eexists. split.
  - vm_compute. reflexivity.
  - vm_compute. discriminate.
Qed.

(** C9: when the list is not empty and no check in it succeeded, the summary
    is computed without raising, on any machine: its success rate is 0.0 and
    its four aggregates are the integer 0.  [generate_summary_report]
    returns that summary whenever the report file can be written. *)
Theorem report_when_nothing_succeeded (self : ChatterboxIntegrationTester) (w : World) :
  results self <> [] ->
  Forall (fun r => success r = false) (results self) ->
  exists s : Summary,
    compute_summary np_mean np_max self w = Py.Ok s /\
    success_rate (test_summary s) = 0%float /\
    performance_summary s
      = mkPerformanceSummary (Py.Int 0) (Py.Int 0) (Py.Int 0) (Py.Int 0) /\
    (writable w (report_path self) = true ->
     fst (generate_summary_report np_mean np_max self w) = Py.Ok s).
Proof.
  intros Hne Hko.
  destruct (compute_summary_returns self w Hne) as (s & Hs).
  exists s. split; [exact Hs |].
  destruct (compute_summary_inv _ _ _ Hs) as (T & P & _).
  rewrite T, P, (filter_none success _ Hko).
  cbn [success_rate map Py.nonempty Py.len List.length Z.of_nat].
  repeat split.
  - unfold Py.int_quotient.
    destruct (results self) as [| r rs]; [congruence |].
    unfold Py.len. cbn [List.length]. rewrite Nat2Z.inj_succ.
    destruct (Z.of_nat (List.length rs)) as [| n | n] eqn:Hn; try lia;
      vm_compute; reflexivity.
  - intros Hw. unfold generate_summary_report, dump_to. rewrite Hs, Hw. reflexivity.
Qed.

End Report.

(** ** The battery and the command-line runner *)

(** The two ways out of [_run_test]. *)
Lemma _run_test_cases (name : string) (f : procedure)
    (self : ChatterboxIntegrationTester) (w : World) :
  (exists (result : TestResult) (w' : World),
     _run_test name f self w =
       (Py.Ok result,
        mkTester (device self) (output_dir self) (results self ++ [result]), w') /\
     test_name result = name /\
     (success result = false -> exists m : string, error_message result = Some m)) \/
  (exists (e : Py.exception) (w' : World),
     _run_test name f self w = (Py.Raise e, self, w') /\
     Py.is_Exception e = false /\
     fst (f (print (Running name) w)) = Py.Raise e).
Proof.
  destruct (f (print (Running name) w)) as [o w1] eqn:Hf.
  destruct (Py.contained o) eqn:Hc.
  - left. pose proof (_run_test_eq name f self w o w1 Hf Hc) as Hrun.
    cbv zeta in Hrun. rewrite Hrun.
    match goal with |- exists r w', (Py.Ok ?R, _, ?W) = _ /\ _ => exists R, W end.
    cbn [test_name success error_message]. repeat split.
    destruct o as [d | e]; cbn [Py.returns]; [discriminate | eauto].
  - right. destruct o as [d | e]; [discriminate |]. cbn [Py.contained] in Hc.
    exists e, w1. rewrite (_run_test_escapes name f self w w1 e Hf Hc).
    repeat split. exact Hc.
Qed.

Lemma no_failure_iff_all_succeeded (l : list TestResult) :
  Py.len (filter (fun r => negb (success r)) l) = 0%Z <->
  Forall (fun r => success r = true) l.
Proof.
  unfold Py.len. induction l as [| r l IH]; cbn [filter].
  - split; [constructor | reflexivity].
  - destruct (success r) eqn:Hr; cbn [negb].
    + rewrite IH. split; intros H.
      * constructor; assumption.
      * inversion H; assumption.
    + cbn [List.length]. split; intros H.
      * lia.
      * inversion H; congruence.
Qed.

(** [e] is what one of the checks raises, on some machine. *)
Definition raised_by_a_check (tests : TestMethods) (e : Py.exception) : Prop :=
  exists (f : procedure) (w : World),
    In f (battery_checks tests) /\ fst (f w) = Py.Raise e.

Section Battery.

Variables np_mean np_max : list float -> float.
Variable tests : TestMethods.

Ltac battery_escape :=
  repeat rewrite <- app_assoc; cbn [app];
  first
    [ match goal with
      | |- context [(Py.Raise _, mkTester _ _ (_ ++ ?l), ?w')] => exists l, w'
      end
    | match goal with
      | |- context [(Py.Raise _, _, ?w')] => exists [], w'; rewrite app_nil_r
      end ];
  cbv zeta; split; [repeat constructor; assumption |];
  right;
  match goal with
  | He : Py.is_Exception ?e = false, Hf : fst (?f ?w0) = Py.Raise ?e |- _ =>
      exists e; split; [cbn [List.length]; lia |];
      split; [unfold battery_names; cbn [map List.length firstn]; congruence |];
      split; [exact He |];
      split; [exists f, w0; split; [cbn [In battery_checks]; auto 12 | exact Hf]
             | reflexivity]
  end.

Ltac battery_step :=
  match goal with
  | |- context [_run_test ?n ?f ?s ?w0] =>
      let r := fresh "r" in
      let w1 := fresh "w" in
      let e := fresh "e" in
      let Hn := fresh "Hn" in
      let Hm := fresh "Hm" in
      let He := fresh "He" in
      let Hf := fresh "Hf" in
      destruct (_run_test_cases n f s w0)
        as [(r & w1 & -> & Hn & Hm) | (e & w1 & -> & He & Hf)];
      cbn [then_run device output_dir results];
      [| battery_escape]
  end.

(** The battery records its checks one after the other.  Either all nine
    are recorded and it reports on the tester it has grown, or some check
    raised outside [Exception] and the battery ended there, with the
    results recorded before. *)
Lemma run_all_tests_results (self : ChatterboxIntegrationTester) (w : World) :
  exists (recorded : list TestResult) (w9 : World),
    let self' := mkTester (device self) (output_dir self) (results self ++ recorded) in
    Forall (fun r => success r = false -> exists m : string, error_message r = Some m)
           recorded /\
    ((map test_name recorded = battery_names /\
      run_all_tests np_mean np_max tests self w =
        (fst (generate_summary_report np_mean np_max self' w9), self',
         snd (generate_summary_report np_mean np_max self' w9))) \/
     (exists e : Py.exception,
        (List.length recorded < 9)%nat /\
        map test_name recorded = firstn (List.length recorded) battery_names /\
        Py.is_Exception e = false /\
        raised_by_a_check tests e /\
        run_all_tests np_mean np_max tests self w = (Py.Raise e, self', w9))).
Proof.
  destruct self as [dev dir rs]. unfold run_all_tests, raised_by_a_check.
  cbn [device output_dir results].
  do 9 battery_step.
  repeat rewrite <- app_assoc. cbn [app].
  match goal with
  | |- context [generate_summary_report _ _ (mkTester _ _ (_ ++ ?l)) ?w9] =>
      exists l, w9
  end.
  cbv zeta. split; [repeat constructor; assumption |].
  left. split; [unfold battery_names; cbn [map]; congruence |].
  destruct (generate_summary_report _ _ _ _) as [s w']. reflexivity.
Qed.

End Battery.

Section Runner.

Import run_integration_tests.

Variable pip_install : string -> World -> Py.result unit * World.
Variables np_mean np_max : list float -> float.
Variable tests : TestMethods.
Variable here : string.

(** A battery that [main] got a summary from ran nine checks on a fresh
    tester, and the failed count of the summary is zero exactly when all
    nine succeeded. *)
Lemma run_battery_summary (w w' : World) (tester : ChatterboxIntegrationTester)
    (summary : Summary) :
  run_battery np_mean np_max tests w = (Py.Ok (tester, summary), w') ->
  List.length (results tester) = 9%nat /\
  (failed_tests (test_summary summary) = 0%Z <->
   Forall (fun r => success r = true) (results tester)).
Proof.
  unfold run_battery, __init__.
  destruct (importable w _); [| discriminate].
  destruct (mkdir_ok w _); [| discriminate].
  match goal with
  | |- context [run_all_tests _ _ _ ?t ?w0] =>
      destruct (run_all_tests_results np_mean np_max tests t w0)
        as (nine & w9 & _ & [(Hnames & Hrun) | (e & _ & _ & _ & _ & Hrun)])
  end; cbv zeta in Hrun; rewrite Hrun; clear Hrun; [| discriminate].
  cbn [results app device output_dir].
  destruct (generate_summary_report _ _ _ w9) as [[s | e] w1] eqn:Hs;
    cbn [fst snd]; [| discriminate].
  intros H. injection H as <- <- _.
  rewrite (report_inv _ _ _ _ _ _ Hs). cbn [failed_tests results].
  split; [| apply no_failure_iff_all_succeeded].
  rewrite <- (length_map test_name), Hnames. reflexivity.
Qed.



End Runner.

(** ** The watermarker patch *)

Section Patch.

Import patched_test.

(** C10: the patch assigns [DummyWatermarker] to [PerthImplicitWatermarker]
    only when the latter is [None]; a non-[None] attribute leaves module and
    output untouched; [DummyWatermarker] itself is never changed; and
    patching an already patched module changes no attribute. *)
Theorem patch_only_when_null (perth : perth_module) (w w' : World) :
  match PerthImplicitWatermarker perth with
  | None =>
      PerthImplicitWatermarker (fst (patch perth w)) = DummyWatermarker perth
  | Some _ => patch perth w = (perth, w)
  end /\
  DummyWatermarker (fst (patch perth w)) = DummyWatermarker perth /\
  fst (patch (fst (patch perth w)) w') = fst (patch perth w).
Proof.
  unfold patch.
  destruct perth as [[implicit |] [dummy |]]; cbn; repeat split.
Qed.

End Patch.

(** ** Further properties of the report and the battery *)

Lemma file_at_write_file_same (path : string) (r : Report) (w : World) :
  file_at path (write_file path r w) = Some r.
Proof.
  unfold file_at, write_file. cbn [files find fst snd].
  rewrite String.eqb_refl. reflexivity.
Qed.

(** [Path(dir) / "integration_test_report.json"] on directories written in
    various ways. *)
Example path_join_follows_pathlib :
  map (fun dir => path_join dir "integration_test_report.json")
      [""; "."; "out/"; "out//a"; "./out"; "/"; "//"; "///x"; "//x"; "a/./b/";
       "a/../b"; "test_outputs"]%string
  = ["integration_test_report.json"; "integration_test_report.json";
     "out/integration_test_report.json"; "out/a/integration_test_report.json";
     "out/integration_test_report.json"; "/integration_test_report.json";
     "//integration_test_report.json"; "/x/integration_test_report.json";
     "//x/integration_test_report.json"; "a/b/integration_test_report.json";
     "a/../b/integration_test_report.json";
     "test_outputs/integration_test_report.json"]%string.
Proof.
  vm_compute. reflexivity.
Qed.

Section ReportFile.

Variables np_mean np_max : list float -> float.

(** X6: when [generate_summary_report] returns a summary, the report file could
    be opened for writing and now holds that summary together with every
    recorded result, whatever it held before; the only output is the
    summary block. *)
Theorem report_is_saved (self : ChatterboxIntegrationTester) (w w' : World) (s : Summary) :
  generate_summary_report np_mean np_max self w = (Py.Ok s, w') ->
  writable w (report_path self) = true /\
  file_at (report_path self) w' = Some (mkReport s (results self)) /\
  stdout w' = stdout w ++ [SummaryLines s (report_path self)].
Proof.
  rewrite report_unfold.
  destruct (compute_summary np_mean np_max self w) as [s0 | e]; [| discriminate].
  destruct (writable w (report_path self)); [| discriminate].
  intros H. injection H as <- <-.
  split; [reflexivity | split].
  - apply file_at_write_file_same.
  - reflexivity.
Qed.

(** X7: the list of failures in a summary has one entry per failed result, and
    an entry is listed exactly when it is the name and error message of a
    recorded result that did not succeed. *)
Theorem failed_list_matches_results (self : ChatterboxIntegrationTester) (w w' : World)
    (s : Summary) :
  generate_summary_report np_mean np_max self w = (Py.Ok s, w') ->
  Py.len (failed_tests_list s) = failed_tests (test_summary s) /\
  (forall (name : string) (err : option string),
     In (name, err) (failed_tests_list s) <->
     exists r : TestResult,
       In r (results self) /\ success r = false /\
       test_name r = name /\ error_message r = err).
Proof.
  intros Hs. apply report_ok_inv in Hs. destruct Hs as (Hs & _).
  destruct (compute_summary_inv _ _ _ _ _ Hs) as (T & _ & F & _).
  rewrite T, F. cbn [failed_tests]. split.
  - unfold Py.len. rewrite length_map. reflexivity.
  - intros name err. rewrite in_map_iff. split.
    + intros (r & Hr & Hin). apply filter_In in Hin. destruct Hin as (Hin & Hko).
      exists r. injection Hr as <- <-.
      repeat split; [exact Hin | destruct (success r); [discriminate | reflexivity]].
    + intros (r & Hin & Hko & <- & <-). exists r. split; [reflexivity |].
      apply filter_In. split; [exact Hin | rewrite Hko; reflexivity].
Qed.

End ReportFile.

(** X2: a tester is created exactly when its output directory can be: it then
    holds no result and the directory it was given; the selector [auto] is
    resolved to [cuda] when CUDA is available (whether or not MPS is), else
    to [mps] when MPS is, else to [cpu], and any other selector is kept as
    given.  When the directory cannot be created, [OSError] is raised before
    anything is printed. *)
Theorem init_resolves_device (selector dir : string) (w : World) :
  match fst (__init__ selector dir w) with
  | Py.Ok self =>
      mkdir_ok w dir = true /\ results self = [] /\ output_dir self = dir /\
      (selector <> "auto"%string -> device self = selector) /\
      (selector = "auto"%string ->
       match cuda w, mps_available w with
       | Some _, _ => device self = "cuda"%string
       | None, true => device self = "mps"%string
       | None, false => device self = "cpu"%string
       end)
  | Py.Raise e =>
      mkdir_ok w dir = false /\ e = Py.OSError dir /\ snd (__init__ selector dir w) = w
  end.
Proof.
  unfold __init__, _detect_device, cuda_is_available.
  destruct (mkdir_ok w dir); cbn [fst snd]; [| repeat split].
  cbn [results output_dir device]. repeat split.
  - intros Hsel. apply String.eqb_neq in Hsel. rewrite Hsel. reflexivity.
  - intros ->. rewrite String.eqb_refl.
    destruct (cuda w), (mps_available w); reflexivity.
Qed.

Section BatteryResults.

Variables np_mean np_max : list float -> float.
Variable tests : TestMethods.


Lemma run_all_tests_outcome (self : ChatterboxIntegrationTester) (w : World) :
  match fst (fst (run_all_tests np_mean np_max tests self w)) with
  | Py.Ok s => total_tests (test_summary s) = (Py.len (results self) + 9)%Z
  | Py.Raise e =>
      e = Py.OSError (report_path self) \/
      (Py.is_Exception e = false /\ raised_by_a_check tests e)
  end.
Proof.
  destruct (run_all_tests_results np_mean np_max tests self w)
    as (nine & w9 & _ & [(Hnames & Hrun) | (e & _ & _ & He & Hby & Hrun)]);
    cbv zeta in Hrun; rewrite Hrun; cbn [fst]; [| right; split; assumption].
  assert (Hlen : List.length nine = 9%nat).
  { rewrite <- (length_map test_name), Hnames. reflexivity. }
  set (self' := mkTester (device self) (output_dir self) (results self ++ nine)).
  pose proof (report_outcomes np_mean np_max self' w9) as Hout.
  destruct (generate_summary_report np_mean np_max self' w9) as [[s | e] w'] eqn:Hs;
    cbn [fst] in *.
  - rewrite (report_inv _ _ _ _ _ _ Hs). cbn [total_tests]. subst self'.
    cbn [results]. unfold Py.len. rewrite length_app, Hlen. lia.
  - left. destruct Hout as [(Hnil & _) | (_ & _ & He)].
    + subst self'. cbn [results] in Hnil.
      apply (f_equal (@List.length _)) in Hnil.
      rewrite length_app, Hlen in Hnil. cbn in Hnil. lia.
    + exact He.
Qed.

(** X4: a battery cannot fail on the success-rate division.  It returns a
    summary, whose total is nine more than the tester held before and whose
    counts add up to it; or it raises the [OSError] of the report file it
    could not write; or it lets through what one of its checks raised
    outside [Exception]. *)
Theorem battery_raises_only_on_write (self : ChatterboxIntegrationTester) (w : World) :
  match fst (fst (run_all_tests np_mean np_max tests self w)) with
  | Py.Ok s =>
      total_tests (test_summary s) = (Py.len (results self) + 9)%Z /\
      (successful_tests (test_summary s) + failed_tests (test_summary s)
       = total_tests (test_summary s))%Z
  | Py.Raise e =>
      e = Py.OSError (report_path self) \/
      (Py.is_Exception e = false /\ raised_by_a_check tests e)
  end.
Proof.
  pose proof (run_all_tests_outcome self w) as Hout.
  destruct (run_all_tests_results np_mean np_max tests self w)
    as (nine & w9 & _ & [(_ & Hrun) | (e & _ & _ & _ & _ & Hrun)]);
    cbv zeta in Hrun; rewrite Hrun in *; cbn [fst] in *; [| exact Hout].
  destruct (generate_summary_report _ _ _ w9) as [[s | e] w'] eqn:Hs; cbn [fst] in *.
  - split; [exact Hout |].
    rewrite (report_inv _ _ _ _ _ _ Hs).
    cbn [successful_tests failed_tests total_tests]. apply len_filter_split.
  - exact Hout.
Qed.



End BatteryResults.

(** ** Further properties of the command-line runner *)

Section Install.

Import run_integration_tests.

Variable pip_install : string -> World -> Py.result unit * World.

(** [installed_in_order reqs w w']: pip was run on the packages [reqs], one
    after the other from the machine [w], succeeded on each, each success
    was reported, and the machine is then [w']. *)
Inductive installed_in_order : list string -> World -> World -> Prop :=
| installed_none (w : World) : installed_in_order [] w w
| installed_next (req : string) (reqs : list string) (w w1 w2 : World) :
    pip_install req w = (Py.Ok tt, w1) ->
    installed_in_order reqs (print (Installed req) w1) w2 ->
    installed_in_order (req :: reqs) w w2.

(** What [install_each] does when pip stops succeeding at [req]. *)
Definition install_failure (req : string) (e : Py.exception) (w : World)
  : Py.result bool * World :=
  if String.eqb (Py.exc_class e) "CalledProcessError"
  then (Py.Ok false, print (InstallFailed req) w)
  else (Py.Raise e, w).

Lemma install_each_spec (reqs : list string) (w : World) :
  exists (done rest : list string) (w1 : World),
    reqs = done ++ rest /\
    installed_in_order done w w1 /\
    match rest with
    | [] => install_each pip_install reqs w = (Py.Ok true, w1)
    | req :: _ =>
        exists (e : Py.exception) (w2 : World),
          pip_install req w1 = (Py.Raise e, w2) /\
          install_each pip_install reqs w = install_failure req e w2
    end.
Proof.
  revert w. induction reqs as [| req reqs IH]; intros w.
  - exists [], [], w. repeat split. constructor.
  - cbn [install_each]. destruct (pip_install req w) as [[[] | e] w1] eqn:Hpip.
    + destruct (IH (print (Installed req) w1)) as (done & rest & w2 & -> & Hdone & Hres).
      exists (req :: done), rest, w2. repeat split.
      * econstructor; eassumption.
      * exact Hres.
    + exists [], (req :: reqs), w. repeat split; [constructor |].
      exists e, w1. split; [exact Hpip | reflexivity].
Qed.

(** X9: [install_requirements] runs pip on the five packages in order and stops
    at the first one on which pip does not succeed: the packages before it
    were installed and reported, none after it is attempted, and the
    outcome is [False] after a [CalledProcessError], with the failure
    reported, and the exception itself otherwise.  It returns [True] only
    after pip succeeded on all five. *)
Theorem install_requirements_stops_at_first_failure (w : World) :
  exists (done rest : list string) (w1 : World),
    requirements = done ++ rest /\
    installed_in_order done (print (Line "Installing required packages...") w) w1 /\
    match rest with
    | [] => install_requirements pip_install w = (Py.Ok true, w1)
    | req :: _ =>
        exists (e : Py.exception) (w2 : World),
          pip_install req w1 = (Py.Raise e, w2) /\
          install_requirements pip_install w =
            (if String.eqb (Py.exc_class e) "CalledProcessError"
             then (Py.Ok false, print (InstallFailed req) w2)
             else (Py.Raise e, w2))
    end.
Proof.
  unfold install_requirements.
  destruct (install_each_spec requirements
              (print (Line "Installing required packages...") w))
    as (done & rest & w1 & Hsplit & Hdone & Hres).
  exists done, rest, w1. split; [exact Hsplit |]. split; [exact Hdone |].
  destruct rest as [| req rest]; [exact Hres |].
  destruct Hres as (e & w2 & Hpip & Hres). exists e, w2. split; [exact Hpip |].
  rewrite Hres. reflexivity.
Qed.

End Install.

Section RunnerReport.

Import run_integration_tests.

Variable pip_install : string -> World -> Py.result unit * World.
Variables np_mean np_max : list float -> float.
Variable tests : TestMethods.
Variable here : string.

Lemma report_file_after (self : ChatterboxIntegrationTester) (w w' : World) (s : Summary) :
  generate_summary_report np_mean np_max self w = (Py.Ok s, w') ->
  file_at (report_path self) w' = Some (mkReport s (results self)).
Proof.
  rewrite report_unfold.
  destruct (compute_summary np_mean np_max self w) as [s0 | e]; [| discriminate].
  destruct (writable w (report_path self)); [| discriminate].
  intros H. injection H as <- <-. apply file_at_write_file_same.
Qed.

Lemma run_battery_report (w w' : World) (tester : ChatterboxIntegrationTester)
    (summary : Summary) :
  run_battery np_mean np_max tests w = (Py.Ok (tester, summary), w') ->
  file_at "test_outputs/integration_test_report.json" w'
  = Some (mkReport summary (results tester)).
Proof.
  unfold run_battery, __init__.
  destruct (importable w _); [| discriminate].
  destruct (mkdir_ok w _); [| discriminate].
  match goal with
  | |- context [run_all_tests _ _ _ ?t ?w0] =>
      destruct (run_all_tests_results np_mean np_max tests t w0)
        as (nine & w9 & _ & [(_ & Hrun) | (e & _ & _ & _ & _ & Hrun)])
  end; cbv zeta in Hrun; rewrite Hrun; clear Hrun; [| discriminate].
  cbn [results app device output_dir].
  destruct (generate_summary_report _ _ _ w9) as [[s | e] w1] eqn:Hs;
    cbn [fst snd]; [| discriminate].
  intros H. injection H as <- <- <-.
  apply (report_file_after _ _ _ _ Hs).
Qed.

(** X10: when the runner exits with 0, the report file is on disk, in
    [test_outputs], and holds a summary without failures together with the
    nine results of the battery, each of them a success. *)
Theorem main_success_leaves_report (w : World) :
  fst (main pip_install np_mean np_max tests here w) = Py.Ok 0%Z ->
  exists (tester : ChatterboxIntegrationTester) (summary : Summary),
    file_at "test_outputs/integration_test_report.json"
            (snd (main pip_install np_mean np_max tests here w))
    = Some (mkReport summary (results tester)) /\
    failed_tests (test_summary summary) = 0%Z /\
    List.length (results tester) = 9%nat /\
    Forall (fun r => success r = true) (results tester).
Proof.
  unfold main.
  destruct (negb (path_exists _ _)); [discriminate |].
  destruct (install_requirements _ _) as [[[|] | e] w1]; [| discriminate | discriminate].
  unfold main_try.
  destruct (run_battery _ _ _ _) as [[[tester summary] | e] w2] eqn:Hb.
  2: { destruct (Py.is_Exception e); discriminate. }
  destruct (run_battery_summary _ _ _ _ _ _ _ Hb) as (Hlen & Hall).
  pose proof (run_battery_report _ _ _ _ Hb) as Hfile.
  destruct (failed_tests (test_summary summary) =? 0)%Z eqn:Hz; [| discriminate].
  apply Z.eqb_eq in Hz. intros _. exists tester, summary.
  cbn [fst snd]. repeat split; try assumption.
  apply Hall, Hz.
Qed.

(** X11: when the suite file is missing, or [install_requirements] does not
    return [True], the runner never starts the battery: whatever the checks
    are, it does the same, which is to return 1, or to let through the
    exception that left [install_requirements].  When the suite file is
    missing it does not run pip either: it prints four lines and changes
    nothing else. *)
Theorem main_stops_before_battery (w : World) :
  let w0 :=
    print (Line "==================================================")
      (print (Line "Chatterbox TTS Integration Test Runner") w) in
  path_exists w (path_join here "integration_test_suite.py") = false \/
  fst (install_requirements pip_install w0) <> Py.Ok true ->
  (forall (np_mean' np_max' : list float -> float) (tests' : TestMethods),
     main pip_install np_mean' np_max' tests' here w
     = main pip_install np_mean np_max tests here w) /\
  match fst (main pip_install np_mean np_max tests here w) with
  | Py.Ok code => code = 1%Z
  | Py.Raise e => fst (install_requirements pip_install w0) = Py.Raise e
  end /\
  (path_exists w (path_join here "integration_test_suite.py") = false ->
   main pip_install np_mean np_max tests here w =
     (Py.Ok 1%Z,
      print_all
        [Line "Chatterbox TTS Integration Test Runner";
         Line "==================================================";
         Line "integration_test_suite.py not found!";
         Line "Please ensure the test suite file is in the integration_tests directory."]
        w)).
Proof.
  intros w0 Hstop. unfold main. fold w0.
  change (path_exists w0 (path_join here "integration_test_suite.py"))
    with (path_exists w (path_join here "integration_test_suite.py")).
  destruct (path_exists w _) eqn:Hp; cbn [negb].
  2: { repeat split. }
  destruct Hstop as [Hstop | Hstop]; [discriminate |].
  destruct (install_requirements pip_install w0) as [[[|] | e] w1]; cbn [fst snd] in *.
  - congruence.
  - repeat split. discriminate.
  - repeat split. discriminate.
Qed.

End RunnerReport.

(** ** The checks that keep books of their own *)

Section Checks.

Import tester_methods.

Variable from_pretrained : string -> World -> Py.result unit * World.
Variable sr : Z.
Variable generate : string -> generate_kwargs -> World -> Py.result (list Z) * World.
Variables np_mean np_var : list float -> float.

Lemma ensure_model_loaded (self : ChatterboxIntegrationTester) (w : World) :
  model_tts w = true -> ensure_model from_pretrained self w = (Py.Ok tt, w).
Proof.
  intros Hm. unfold ensure_model. rewrite Hm. reflexivity.
Qed.

Lemma ensure_model_raises (self : ChatterboxIntegrationTester) (w w' : World)
    (e : Py.exception) :
  ensure_model from_pretrained self w = (Py.Raise e, w') ->
  model_tts w = false /\ from_pretrained (device self) w = (Py.Raise e, w').
Proof.
  unfold ensure_model. destruct (model_tts w); [discriminate |].
  destruct (from_pretrained (device self) w) as [[[] | e0] w0]; [discriminate |].
  intros H. injection H as <- <-. split; reflexivity.
Qed.

Lemma audio_duration_raises (wav_shape : list Z) (e : Py.exception) :
  audio_duration sr wav_shape = Py.Raise e -> Py.is_Exception e = true.
Proof.
  unfold audio_duration, Py.last_item, Py.int_truediv.
  destruct (rev wav_shape) as [| samples rest].
  - intros H. injection H as <-. reflexivity.
  - destruct (sr =? 0)%Z; [| discriminate].
    intros H. injection H as <-. reflexivity.
Qed.

(** [{"success": False, "error": str(e)}], written out. *)
Definition failure_entry (e : Py.exception) : Py.value :=
  Py.VDict [("success", Py.VBool false); ("error", Py.VStr (Py.str e))].

(** What the entry [v] of an edge case says, given what [generate] does on
    the machine [w] the case is entered in: the duration of the waveform
    after the fields [middle] when the call and the division go through,
    the text of the exception that stopped either of them otherwise. *)
Definition edge_entry (text : string) (kwargs : generate_kwargs) (middle : Py.dict)
    (w : World) (v : Py.value) : Prop :=
  match fst (generate text kwargs w) with
  | Py.Ok wav_shape =>
      match Py.last_item wav_shape with
      | Py.Ok samples =>
          if (sr =? 0)%Z then v = failure_entry Py.ZeroDivisionError
          else v = Py.VDict ([("success", Py.VBool true)] ++ middle
                             ++ [("audio_duration", Py.VFloat (Py.int_quotient samples sr))])
      | Py.Raise e => v = failure_entry e
      end
  | Py.Raise e => Py.is_Exception e = true /\ v = failure_entry e
  end.

Lemma edge_case_outcome (text : string) (kwargs : generate_kwargs) (middle : Py.dict)
    (w : World) :
  snd (edge_case sr generate text kwargs middle w) = snd (generate text kwargs w) /\
  match fst (edge_case sr generate text kwargs middle w) with
  | Py.Ok v => edge_entry text kwargs middle w v
  | Py.Raise e =>
      Py.is_Exception e = false /\ fst (generate text kwargs w) = Py.Raise e
  end.
Proof.
  unfold edge_case, edge_entry, failure_entry, edge_failure.
  destruct (generate text kwargs w) as [[wav | e] w1]; cbn [fst snd].
  - pose proof (audio_duration_raises wav) as Hexc.
    unfold audio_duration, Py.int_truediv in *.
    destruct (Py.last_item wav) as [samples | e].
    + destruct (sr =? 0)%Z.
      * split; reflexivity.
      * split; reflexivity.
    + rewrite (Hexc e eq_refl). split; reflexivity.
  - destruct (Py.is_Exception e) eqn:He; cbn [fst snd]; repeat split; assumption.
Qed.

Lemma long_text_length :
  Z.of_nat (String.length (Py.repeat_str "This is a very long text. " 100)) = 2600%Z.
Proof. vm_compute. reflexivity. Qed.

Lemma test_edge_cases_outcome (self : ChatterboxIntegrationTester) (w : World) :
  let long_text := Py.repeat_str "This is a very long text. " 100 in
  let extreme := mkKwargs (Some 2%float) (Some 1%float) (Some 2%float) in
  let w1 := snd (ensure_model from_pretrained self w) in
  let w2 := snd (generate "" no_kwargs w1) in
  let w3 := snd (generate "A" no_kwargs w2) in
  let w4 := snd (generate long_text no_kwargs w3) in
  match fst (test_edge_cases from_pretrained sr generate self w) with
  | Py.Ok d =>
      exists v1 v2 v3 v4 : Py.value,
        d = [("empty_text", v1); ("single_char", v2); ("very_long_text", v3);
             ("extreme_params", v4)] /\
        edge_entry "" no_kwargs [] w1 v1 /\
        edge_entry "A" no_kwargs [] w2 v2 /\
        edge_entry long_text no_kwargs [("text_length", Py.VInt 2600)] w3 v3 /\
        edge_entry "Testing extreme parameters." extreme [] w4 v4
  | Py.Raise e =>
      (model_tts w = false /\ fst (from_pretrained (device self) w) = Py.Raise e) \/
      (Py.is_Exception e = false /\
       exists (text : string) (kwargs : generate_kwargs) (w0 : World),
         fst (generate text kwargs w0) = Py.Raise e)
  end.
Proof.
  cbv zeta. unfold test_edge_cases. rewrite long_text_length.
  destruct (ensure_model from_pretrained self w) as [[[] | e] w0] eqn:Hload; cbn [fst snd].
  2: { apply ensure_model_raises in Hload. destruct Hload as (Hm & ->). left. auto. }
  repeat match goal with
  | |- context [edge_case sr generate ?t ?k ?m ?w1] =>
      let v := fresh "v" in
      let w2 := fresh "w" in
      let Hv := fresh "Hv" in
      let Hw := fresh "Hw" in
      destruct (edge_case_outcome t k m w1) as [Hw Hv];
      destruct (edge_case sr generate t k m w1) as [[v | ?e] w2];
      cbn [fst snd] in Hw, Hv |- *; subst w2;
      [| right; split; [apply Hv | do 3 eexists; apply Hv]]
  end.
  do 4 eexists. split; [reflexivity |]. repeat split; assumption.
Qed.

(** X12: [test_edge_cases] raises in two cases only: the model is not loaded yet
    and loading it fails, or a call of [generate] raises outside
    [Exception].  Otherwise it returns the four entries [empty_text],
    [single_char], [very_long_text] and [extreme_params], in this order;
    each call of [generate] starts on the machine the previous one left, and
    each entry holds the duration of its waveform (after the text length,
    2600, for the long text) or, flagged as a failure, the text of the very
    exception that [generate], the empty shape or a zero sample rate
    raised. *)
Theorem edge_cases_raise_only_on_load (self : ChatterboxIntegrationTester) (w : World) :
  let long_text := Py.repeat_str "This is a very long text. " 100 in
  let extreme := mkKwargs (Some 2%float) (Some 1%float) (Some 2%float) in
  let w1 := snd (ensure_model from_pretrained self w) in
  let w2 := snd (generate "" no_kwargs w1) in
  let w3 := snd (generate "A" no_kwargs w2) in
  let w4 := snd (generate long_text no_kwargs w3) in
  match fst (test_edge_cases from_pretrained sr generate self w) with
  | Py.Ok d =>
      exists v1 v2 v3 v4 : Py.value,
        d = [("empty_text", v1); ("single_char", v2); ("very_long_text", v3);
             ("extreme_params", v4)] /\
        edge_entry "" no_kwargs [] w1 v1 /\
        edge_entry "A" no_kwargs [] w2 v2 /\
        edge_entry long_text no_kwargs [("text_length", Py.VInt 2600)] w3 v3 /\
        edge_entry "Testing extreme parameters." extreme [] w4 v4
  | Py.Raise e =>
      (model_tts w = false /\ fst (from_pretrained (device self) w) = Py.Raise e) \/
      (Py.is_Exception e = false /\
       exists (text : string) (kwargs : generate_kwargs) (w0 : World),
         fst (generate text kwargs w0) = Py.Raise e)
  end.
Proof.
  exact (test_edge_cases_outcome self w).
Qed.

(** X13: run through [_run_test] with the model already loaded, and with a
    [generate] that raises nothing outside [Exception], the edge-case check
    is recorded as a success with its four entries, whatever else
    [generate] does, even when it raises on every call. *)
Theorem edge_cases_check_always_passes (self tester : ChatterboxIntegrationTester)
    (w : World) :
  model_tts w = true ->
  (forall (text : string) (kwargs : generate_kwargs) (w0 : World) (e : Py.exception),
     fst (generate text kwargs w0) = Py.Raise e -> Py.is_Exception e = true) ->
  exists result : TestResult,
    fst (fst (_run_test "Edge Cases" (test_edge_cases from_pretrained sr generate self)
                tester w)) = Py.Ok result /\
    success result = true /\ error_message result = None /\
    Py.keys (output_info result)
    = ["empty_text"; "single_char"; "very_long_text"; "extreme_params"]%string.
Proof.
  intros Hm Hgen.
  pose proof (test_edge_cases_outcome self (print (Running "Edge Cases") w)) as H.
  cbv zeta in H.
  destruct (test_edge_cases from_pretrained sr generate self
              (print (Running "Edge Cases") w)) as [o w1] eqn:Hf.
  cbn [fst] in H.
  destruct o as [d | e].
  - rewrite (_run_test_eq _ _ tester w _ w1 Hf eq_refl).
    eexists. split; [reflexivity |].
    cbn [success error_message output_info Py.returns].
    destruct H as (v1 & v2 & v3 & v4 & -> & _). repeat split.
  - exfalso. destruct H as [(Hno & _) | (He & text & kwargs & w0 & Hraise)].
    + cbn [model_tts print] in Hno. congruence.
    + rewrite (Hgen _ _ _ _ Hraise) in He. discriminate.
Qed.

Lemma take_snapshots_iterations (text : string) (ram : float) (gpu : option float)
    (indices : list Z) (w w' : World) (snapshots : list memory_snapshot) :
  take_snapshots generate text ram gpu indices w = (Py.Ok snapshots, w') ->
  map iteration snapshots = indices /\
  (Py.truthy gpu = false -> Forall (fun m => gpu_mb m = None) snapshots).
Proof.
  revert w w' snapshots.
  induction indices as [| i indices IH]; intros w w' snapshots; cbn [take_snapshots].
  - intros H. injection H as <- _. split; [reflexivity | constructor].
  - destruct (generate text no_kwargs w) as [[wav | e] w1]; [| discriminate].
    destruct (_get_memory_usage w1) as [ram1 gpu1].
    destruct (take_snapshots generate text ram gpu indices w1) as [[rest | e] w2] eqn:Hrest;
      [| discriminate].
    intros H. injection H as <- _.
    destruct (IH _ _ _ Hrest) as (Hit & Hgpu).
    cbn [map iteration]. split; [rewrite Hit; reflexivity |].
    intros Hbase. constructor; [| exact (Hgpu Hbase)].
    cbn [gpu_mb]. unfold gpu_delta. rewrite Hbase, andb_false_r. reflexivity.
Qed.


(** X15: when the five snapshots are taken, the memory check raises a
    [TypeError] exactly when the first snapshot has no GPU figure and the
    last one has; in every other case it returns. *)
Theorem memory_patterns_type_error (self : ChatterboxIntegrationTester) (w w' : World)
    (snapshots : list memory_snapshot) :
  model_tts w = true ->
  take_snapshots generate
    "Testing memory usage patterns during text to speech generation."
    (fst (_get_memory_usage w)) (snd (_get_memory_usage w)) (Py.range 5) w
  = (Py.Ok snapshots, w') ->
  exists first last : memory_snapshot,
    hd_error snapshots = Some first /\ hd_error (rev snapshots) = Some last /\
    match gpu_mb first, gpu_mb last with
    | None, Some _ =>
        test_memory_usage_patterns from_pretrained generate self w
        = (Py.Raise Py.TypeError_sub_None, w')
    | _, _ =>
        Py.returns (fst (test_memory_usage_patterns from_pretrained generate self w)) = true
    end.
Proof.
  intros Hm Hs. unfold test_memory_usage_patterns.
  rewrite (ensure_model_loaded self w Hm).
  destruct (_get_memory_usage w) as [ram0 gpu0]. cbn [fst snd] in *.
  rewrite Hs.
  destruct (take_snapshots_iterations _ _ _ _ _ _ _ Hs) as (Hit & _).
  destruct snapshots as [| m0 [| m1 [| m2 [| m3 [| m4 [| m5 rest]]]]]];
    try discriminate Hit.
  cbn [rev app hd_error]. exists m0, m4. repeat split.
  unfold memory_growth.
  destruct (gpu_mb m0), (gpu_mb m4); reflexivity.
Qed.

(** [v["call_index"]] of the entries of a list. *)
Lemma concurrent_calls_indices (calls : list (Z * string)) (w w' : World)
    (entries : list Py.value) :
  concurrent_calls sr generate calls w = (Py.Ok entries, w') ->
  map (Py.item "call_index") entries = map (fun c => Some (Py.VInt (fst c))) calls.
Proof.
  revert w w' entries.
  induction calls as [| [i text] calls IH]; intros w w' entries; cbn [concurrent_calls].
  - intros H. injection H as <- _. reflexivity.
  - destruct (generate text no_kwargs w) as [[wav | e] w1]; [| discriminate].
    destruct (audio_duration sr wav) as [d | e]; [| discriminate].
    destruct (concurrent_calls sr generate calls w1) as [[rest | e] w2] eqn:Hrest;
      [| discriminate].
    intros H. injection H as <- _.
    cbn [map fst]. rewrite (IH _ _ _ Hrest). reflexivity.
Qed.

(** X16: when [test_concurrent_usage] returns, it reports five calls, one entry
    per call with indices 0 to 4 in order, and an average time per call
    that is the total time divided by five. *)
Theorem concurrent_usage_counts (self : ChatterboxIntegrationTester) (w w' : World)
    (d : Py.dict) :
  test_concurrent_usage from_pretrained sr generate self w = (Py.Ok d, w') ->
  Py.get d "total_calls" = Some (Py.VInt 5) /\
  exists (entries : list Py.value) (total : float),
    Py.get d "individual_results" = Some (Py.VList entries) /\
    map (Py.item "call_index") entries
    = [Some (Py.VInt 0); Some (Py.VInt 1); Some (Py.VInt 2); Some (Py.VInt 3);
       Some (Py.VInt 4)] /\
    Py.get d "total_time" = Some (Py.VFloat total) /\
    Py.get d "avg_time_per_call" = Some (Py.VFloat (PrimFloat.div total 5)).
Proof.
  unfold test_concurrent_usage.
  destruct (ensure_model from_pretrained self w) as [[[] | e] w0]; [| discriminate].
  destruct (concurrent_calls sr generate _ w0) as [[entries | e] w1] eqn:Hc;
    [| discriminate].
  intros H. injection H as <- _.
  apply concurrent_calls_indices in Hc.
  split; [reflexivity |].
  exists entries. eexists. repeat split. exact Hc.
Qed.

Lemma consistency_runs_indices (text : string) (indices : list Z) (w w' : World)
    (runs : list consistency_run) :
  consistency_runs sr generate text indices w = (Py.Ok runs, w') ->
  map run runs = indices.
Proof.
  revert w w' runs.
  induction indices as [| i indices IH]; intros w w' runs; cbn [consistency_runs].
  - intros H. injection H as <- _. reflexivity.
  - destruct (generate text _ w) as [[wav | e] w1]; [| discriminate].
    destruct (audio_duration sr wav) as [d | e]; [| discriminate].
    destruct (consistency_runs sr generate text indices w1) as [[rest | e] w2] eqn:Hrest;
      [| discriminate].
    intros H. injection H as <- _.
    cbn [map run]. rewrite (IH _ _ _ Hrest). reflexivity.
Qed.

Lemma shape_eqb_eq (a b : list Z) : shape_eqb a b = true <-> a = b.
Proof.
  unfold shape_eqb. destruct (list_eq_dec Z.eq_dec a b); split; congruence.
Qed.

Lemma shapes_consistent_iff (runs : list consistency_run) :
  shapes_consistent runs = true <->
  forall r1 r2 : consistency_run, In r1 runs -> In r2 runs -> shape r1 = shape r2.
Proof.
  unfold shapes_consistent. destruct runs as [| r0 runs].
  - split; [intros _ r1 r2 [] | reflexivity].
  - rewrite forallb_forall. split.
    + intros H r1 r2 H1 H2.
      apply H in H1, H2. apply shape_eqb_eq in H1, H2. congruence.
    + intros H r Hr. apply shape_eqb_eq. apply H; [exact Hr | left; reflexivity].
Qed.

(** X17: when [test_api_consistency] returns, it holds three runs numbered 0 to
    2, and [shapes_consistent] is true exactly when the waveforms of all
    runs have the same shape. *)
Theorem api_consistency_compares_shapes (self : ChatterboxIntegrationTester)
    (w w' : World) (d : Py.dict) :
  test_api_consistency from_pretrained sr generate np_mean np_var self w = (Py.Ok d, w') ->
  exists runs : list consistency_run,
    Py.get d "runs" = Some (Py.VList (map run_entry runs)) /\
    map run runs = [0; 1; 2]%Z /\
    Py.get d "shapes_consistent" = Some (Py.VBool (shapes_consistent runs)) /\
    (shapes_consistent runs = true <->
     forall r1 r2 : consistency_run, In r1 runs -> In r2 runs -> shape r1 = shape r2).
Proof.
  unfold test_api_consistency.
  destruct (ensure_model from_pretrained self w) as [[[] | e] w0]; [| discriminate].
  destruct (consistency_runs sr generate _ _ w0) as [[runs | e] w1] eqn:Hr;
    [| discriminate].
  intros H. injection H as <- _.
  exists runs. repeat split.
  - exact (consistency_runs_indices _ _ _ _ _ Hr).
  - apply shapes_consistent_iff.
  - apply shapes_consistent_iff.
Qed.

(** X18: a check that finds the model loaded does not load it again: its outcome
    is the same whatever [from_pretrained] would do. *)
Theorem loaded_model_is_reused (self : ChatterboxIntegrationTester) (w : World)
    (from_pretrained' : string -> World -> Py.result unit * World) :
  model_tts w = true ->
  test_edge_cases from_pretrained' sr generate self w
  = test_edge_cases from_pretrained sr generate self w /\
  test_concurrent_usage from_pretrained' sr generate self w
  = test_concurrent_usage from_pretrained sr generate self w /\
  test_api_consistency from_pretrained' sr generate np_mean np_var self w
  = test_api_consistency from_pretrained sr generate np_mean np_var self w /\
  test_memory_usage_patterns from_pretrained' generate self w
  = test_memory_usage_patterns from_pretrained generate self w.
Proof.
  intros Hm.
  unfold test_edge_cases, test_concurrent_usage, test_api_consistency,
    test_memory_usage_patterns, ensure_model.
  rewrite Hm. repeat split.
Qed.

End Checks.

(** ** The theorems at work on the sample runs *)

Section SampleRuns.

Import Samples.

(** The failure scenario of a check: the exception is recorded, not raised. *)
Example run_test_records_failure :
  exists result : TestResult,
    fst (fst (_run_test "Basic TTS" out_of_memory fresh_tester cpu_world)) = Py.Ok result /\
    success result = false /\ output_info result = [] /\
    error_message result = Some "CUDA out of memory"%string /\
    execution_time result = 0.5%float /\ gpu_memory_mb result = None.
Proof.
  eexists. split; [vm_compute; reflexivity |].
  vm_compute. repeat split; reflexivity.
Qed.

(** C2, a counterexample to "always returns a result": a check that calls
    [sys.exit(0)] is not recorded; the exit leaves [_run_test], which hands
    back no result and leaves the tester as it was. *)
Lemma run_test_lets_exit_through :
  _run_test "Basic TTS" exits_zero fresh_tester cpu_world
  = (Py.Raise (Py.SystemExit 0), fresh_tester, print (Running "Basic TTS") cpu_world) /\
  Py.returns (fst (fst (_run_test "Basic TTS" exits_zero fresh_tester cpu_world))) = false /\
  results (snd (fst (_run_test "Basic TTS" exits_zero fresh_tester cpu_world))) = [].
Proof.
  repeat split.
Qed.

Lemma run_test_error_iff_failed_witness :
  exists (result : TestResult) (self' : ChatterboxIntegrationTester) (w' : World),
    _run_test "Basic TTS" out_of_memory fresh_tester cpu_world = (Py.Ok result, self', w') /\
    (error_message result <> None <-> success result = false).
Proof.
  do 3 eexists. split; [lazy; reflexivity |].
  eapply (run_test_error_iff_failed "Basic TTS" out_of_memory fresh_tester _ cpu_world).
  lazy. reflexivity.
Defined.

Lemma _run_test_deltas_witness :
  exists (result : TestResult) (self' : ChatterboxIntegrationTester) (w' : World),
    _run_test "Model Loading" load_model fresh_tester loaded_cuda_world
    = (Py.Ok result, self', w') /\
    execution_time result = 2%float /\
    memory_usage_mb result = 2%float /\
    gpu_memory_mb result = Some 3000%float.
Proof.
  do 3 eexists. split; [lazy; reflexivity |].
  pose proof (_run_test_deltas "Model Loading" load_model fresh_tester _ loaded_cuda_world _ _
                ltac:(lazy; reflexivity)) as H.
  exact H.
Defined.

(** A procedure that grows resident memory by 2 MB has done so once, not
    twice, when [_run_test] returns. *)
Example run_test_runs_procedure_once :
  rss (snd (_run_test "Model Loading" load_model fresh_tester cpu_world))
  = (rss cpu_world + 2 * MB)%Z.
Proof.
  vm_compute. reflexivity.
Qed.

Lemma report_counts_add_up_witness :
  exists (s : Summary) (w' : World),
    generate_summary_report mean maximum nine_tester cpu_world = (Py.Ok s, w') /\
    (successful_tests (test_summary s) + failed_tests (test_summary s)
     = total_tests (test_summary s))%Z /\
    total_tests (test_summary s) = Py.len (results nine_tester).
Proof.
  eexists. eexists. split.
  - lazy. reflexivity.
  - eapply (report_counts_add_up mean maximum nine_tester cpu_world).
    lazy. reflexivity.
Defined.

Lemma report_is_function_of_results_witness :
  exists (s1 s2 : Summary) (w1' w2' : World),
    results nine_tester = results nine_tester_cuda /\
    generate_summary_report mean maximum nine_tester cpu_world = (Py.Ok s1, w1') /\
    generate_summary_report mean maximum nine_tester_cuda idle_world = (Py.Ok s2, w2') /\
    test_summary s1 = test_summary s2 /\
    performance_summary s1 = performance_summary s2 /\
    failed_tests_list s1 = failed_tests_list s2.
Proof.
  do 4 eexists.
  split; [reflexivity |].
  split; [lazy; reflexivity |].
  split; [lazy; reflexivity |].
  eapply (proj2 (report_is_function_of_results mean maximum)
            nine_tester nine_tester_cuda cpu_world idle_world).
  - reflexivity.
  - lazy. reflexivity.
  - lazy. reflexivity.
Defined.

Lemma report_nine_with_two_failures_witness :
  exists (s : Summary) (w' : World),
    List.length (results nine_tester) = 9%nat /\
    List.length (filter (fun r => negb (success r)) (results nine_tester)) = 2%nat /\
    generate_summary_report mean maximum nine_tester cpu_world = (Py.Ok s, w') /\
    total_tests (test_summary s) = 9%Z /\
    successful_tests (test_summary s) = 7%Z /\
    failed_tests (test_summary s) = 2%Z /\
    exists rate : Q,
      Py.Q_of_float (success_rate (test_summary s)) = Some rate /\
      (Qabs (rate - (7778 # 100)) <= (1 # 100))%Q.
Proof.
  eexists. eexists.
  split; [reflexivity |].
  split; [reflexivity |].
  split; [lazy; reflexivity |].
  eapply (report_nine_with_two_failures mean maximum nine_tester cpu_world).
  - reflexivity.
  - reflexivity.
  - lazy. reflexivity.
Defined.

Lemma report_when_nothing_succeeded_witness :
  results failed_tester <> [] /\
  Forall (fun r => success r = false) (results failed_tester) /\
  exists s : Summary,
    compute_summary mean maximum failed_tester cpu_world = Py.Ok s /\
    success_rate (test_summary s) = 0%float /\
    performance_summary s
      = mkPerformanceSummary (Py.Int 0) (Py.Int 0) (Py.Int 0) (Py.Int 0) /\
    (writable cpu_world (report_path failed_tester) = true ->
     fst (generate_summary_report mean maximum failed_tester cpu_world) = Py.Ok s).
Proof.
  assert (Hne : results failed_tester <> []) by (cbn; discriminate).
  assert (Hko : Forall (fun r => success r = false) (results failed_tester))
    by (repeat constructor).
  repeat split; try assumption.
  exact (report_when_nothing_succeeded mean maximum failed_tester cpu_world Hne Hko).
Defined.


(** One failed check out of nine makes the runner exit with 1. *)
Example main_exits_1_on_a_failed_check :
  fst (run_integration_tests.main pip_works mean maximum one_failing_tests
         "integration_tests" cpu_world) = Py.Ok 1%Z.
Proof.
  vm_compute. reflexivity.
Qed.

(** So does a report file that cannot be written, although every check
    passed. *)
Example main_exits_1_on_unwritable_report :
  fst (run_integration_tests.main pip_works mean maximum passing_tests
         "integration_tests" readonly_world) = Py.Ok 1%Z.
Proof.
  vm_compute. reflexivity.
Qed.


Lemma report_is_saved_witness :
  exists (s : Summary) (w' : World),
    generate_summary_report mean maximum nine_tester cpu_world = (Py.Ok s, w') /\
    writable cpu_world (report_path nine_tester) = true /\
    file_at (report_path nine_tester) w' = Some (mkReport s (results nine_tester)) /\
    stdout w' = stdout cpu_world ++ [SummaryLines s (report_path nine_tester)].
Proof.
  do 2 eexists. split; [lazy; reflexivity |].
  eapply (report_is_saved mean maximum nine_tester cpu_world).
  lazy. reflexivity.
Defined.

Lemma failed_list_matches_results_witness :
  exists (s : Summary) (w' : World),
    generate_summary_report mean maximum nine_tester cpu_world = (Py.Ok s, w') /\
    Py.len (failed_tests_list s) = failed_tests (test_summary s) /\
    (forall (name : string) (err : option string),
       In (name, err) (failed_tests_list s) <->
       exists r : TestResult,
         In r (results nine_tester) /\ success r = false /\
         test_name r = name /\ error_message r = err).
Proof.
  do 2 eexists. split; [lazy; reflexivity |].
  eapply (failed_list_matches_results mean maximum nine_tester cpu_world).
  lazy. reflexivity.
Defined.


Lemma main_success_leaves_report_witness :
  fst (run_integration_tests.main pip_works mean maximum passing_tests
         "integration_tests" cpu_world)
  = Py.Ok 0%Z /\
  exists (tester : ChatterboxIntegrationTester) (summary : Summary),
    file_at "test_outputs/integration_test_report.json"
      (snd (run_integration_tests.main pip_works mean maximum passing_tests
              "integration_tests" cpu_world))
    = Some (mkReport summary (results tester)) /\
    failed_tests (test_summary summary) = 0%Z /\
    List.length (results tester) = 9%nat /\
    Forall (fun r => success r = true) (results tester).
Proof.
  assert (H : fst (run_integration_tests.main pip_works mean maximum passing_tests
                     "integration_tests" cpu_world) = Py.Ok 0%Z)
    by (vm_compute; reflexivity).
  split; [exact H |].
  exact (main_success_leaves_report pip_works mean maximum passing_tests
           "integration_tests" cpu_world H).
Defined.

Lemma main_stops_before_battery_witness :
  fst (run_integration_tests.install_requirements pip_without_torch
         (print (Line "==================================================")
            (print (Line "Chatterbox TTS Integration Test Runner") cpu_world)))
  <> Py.Ok true /\
  (forall (np_mean' np_max' : list float -> float) (tests' : TestMethods),
     run_integration_tests.main pip_without_torch np_mean' np_max' tests'
       "integration_tests" cpu_world
     = run_integration_tests.main pip_without_torch mean maximum passing_tests
         "integration_tests" cpu_world) /\
  fst (run_integration_tests.main pip_without_torch mean maximum passing_tests
         "integration_tests" cpu_world) = Py.Ok 1%Z.
Proof.
  assert (H : fst (run_integration_tests.install_requirements pip_without_torch
                     (print (Line "==================================================")
                        (print (Line "Chatterbox TTS Integration Test Runner") cpu_world)))
              <> Py.Ok true)
    by (vm_compute; discriminate).
  split; [exact H |].
  pose proof (main_stops_before_battery pip_without_torch mean maximum passing_tests
                "integration_tests" cpu_world (or_intror H)) as (Hsame & _ & _).
  split; [exact Hsame |].
  vm_compute. reflexivity.
Defined.

Lemma edge_cases_check_always_passes_witness :
  model_tts loaded_world = true /\
  (forall (text : string) (kwargs : tester_methods.generate_kwargs) (w0 : World)
          (e : Py.exception),
     fst (failing_generate text kwargs w0) = Py.Raise e -> Py.is_Exception e = true) /\
  exists result : TestResult,
    fst (fst (_run_test "Edge Cases"
                (tester_methods.test_edge_cases load_weights 24000 failing_generate
                   fresh_tester)
                fresh_tester loaded_world)) = Py.Ok result /\
    success result = true /\ error_message result = None /\
    Py.keys (output_info result)
    = ["empty_text"; "single_char"; "very_long_text"; "extreme_params"]%string.
Proof.
  assert (Hgen : forall (text : string) (kwargs : tester_methods.generate_kwargs)
                        (w0 : World) (e : Py.exception),
             fst (failing_generate text kwargs w0) = Py.Raise e ->
             Py.is_Exception e = true).
  { intros text kwargs w0 e H. cbn in H. injection H as <-. reflexivity. }
  split; [reflexivity |]. split; [exact Hgen |].
  apply (edge_cases_check_always_passes load_weights 24000 failing_generate
           fresh_tester fresh_tester loaded_world eq_refl Hgen).
Defined.

(** With that [generate], every entry of the edge-case check holds the text
    of the exception. *)
Example edge_cases_entries_on_failure :
  fst (tester_methods.test_edge_cases load_weights 24000 failing_generate
         fresh_tester loaded_world)
  = Py.Ok
      (map (fun key =>
              (key, Py.VDict [("success", Py.VBool false);
                              ("error", Py.VStr "CUDA out of memory")]))
           ["empty_text"; "single_char"; "very_long_text"; "extreme_params"]%string).
Proof.
  vm_compute. reflexivity.
Qed.


Lemma memory_patterns_type_error_witness :
  exists (snapshots : list tester_methods.memory_snapshot) (w' : World),
    model_tts loaded_cuda_world = true /\
    tester_methods.take_snapshots draining_generate
      "Testing memory usage patterns during text to speech generation."
      (fst (_get_memory_usage loaded_cuda_world)) (snd (_get_memory_usage loaded_cuda_world))
      (Py.range 5) loaded_cuda_world
    = (Py.Ok snapshots, w') /\
    exists first last : tester_methods.memory_snapshot,
      hd_error snapshots = Some first /\ hd_error (rev snapshots) = Some last /\
      match tester_methods.gpu_mb first, tester_methods.gpu_mb last with
      | None, Some _ =>
          tester_methods.test_memory_usage_patterns load_weights draining_generate
            fresh_tester loaded_cuda_world
          = (Py.Raise Py.TypeError_sub_None, w')
      | _, _ =>
          Py.returns (fst (tester_methods.test_memory_usage_patterns load_weights
                             draining_generate fresh_tester loaded_cuda_world)) = true
      end.
Proof.
  do 2 eexists. split; [reflexivity |]. split; [lazy; reflexivity |].
  eapply (memory_patterns_type_error load_weights draining_generate fresh_tester
            loaded_cuda_world).
  - reflexivity.
  - lazy. reflexivity.
Defined.

(** On that machine the memory check does raise, and the runner records the
    failure. *)
Example memory_check_fails_on_drained_gpu :
  exists result : TestResult,
    fst (fst (_run_test "Memory Usage Patterns"
                (tester_methods.test_memory_usage_patterns load_weights draining_generate
                   fresh_tester)
                fresh_tester loaded_cuda_world)) = Py.Ok result /\
    success result = false /\
    error_message result
    = Some "unsupported operand type(s) for -: 'float' and 'NoneType'"%string.
Proof.
  eexists. split; [vm_compute; reflexivity |].
  vm_compute. split; reflexivity.
Qed.

Lemma concurrent_usage_counts_witness :
  exists (d : Py.dict) (w' : World),
    tester_methods.test_concurrent_usage load_weights 24000 steady_generate
      fresh_tester loaded_world = (Py.Ok d, w') /\
    Py.get d "total_calls" = Some (Py.VInt 5) /\
    exists (entries : list Py.value) (total : float),
      Py.get d "individual_results" = Some (Py.VList entries) /\
      map (Py.item "call_index") entries
      = [Some (Py.VInt 0); Some (Py.VInt 1); Some (Py.VInt 2); Some (Py.VInt 3);
         Some (Py.VInt 4)] /\
      Py.get d "total_time" = Some (Py.VFloat total) /\
      Py.get d "avg_time_per_call" = Some (Py.VFloat (PrimFloat.div total 5)).
Proof.
  do 2 eexists. split; [lazy; reflexivity |].
  eapply (concurrent_usage_counts load_weights 24000 steady_generate fresh_tester
            loaded_world).
  lazy. reflexivity.
Defined.

Lemma api_consistency_compares_shapes_witness :
  exists (d : Py.dict) (w' : World),
    tester_methods.test_api_consistency load_weights 24000 steady_generate mean variance
      fresh_tester loaded_world = (Py.Ok d, w') /\
    exists runs : list tester_methods.consistency_run,
      Py.get d "runs" = Some (Py.VList (map tester_methods.run_entry runs)) /\
      map tester_methods.run runs = [0; 1; 2]%Z /\
      Py.get d "shapes_consistent"
      = Some (Py.VBool (tester_methods.shapes_consistent runs)) /\
      (tester_methods.shapes_consistent runs = true <->
       forall r1 r2 : tester_methods.consistency_run,
         In r1 runs -> In r2 runs -> tester_methods.shape r1 = tester_methods.shape r2).
Proof.
  do 2 eexists. split; [lazy; reflexivity |].
  eapply (api_consistency_compares_shapes load_weights 24000 steady_generate mean variance
            fresh_tester loaded_world).
  lazy. reflexivity.
Defined.

Lemma loaded_model_is_reused_witness :
  model_tts loaded_world = true /\
  tester_methods.test_edge_cases (fun _ w => (Py.Raise (Py.Exc "OSError" "no weights"), w))
    24000 steady_generate fresh_tester loaded_world
  = tester_methods.test_edge_cases load_weights 24000 steady_generate fresh_tester
      loaded_world.
Proof.
  split; [reflexivity |].
  apply (loaded_model_is_reused load_weights 24000 steady_generate mean variance
           fresh_tester loaded_world
           (fun _ w => (Py.Raise (Py.Exc "OSError" "no weights"), w))).
  reflexivity.
Defined.

(** A battery whose second check calls [sys.exit(0)] holds the result of
    the first check only, and lets the exit through. *)
Example battery_ends_at_exit :
  let run := run_all_tests mean maximum exiting_tests fresh_tester cpu_world in
  fst (fst run) = Py.Raise (Py.SystemExit 0) /\
  map test_name (results (snd (fst run))) = ["Model Loading"]%string /\
  script_status mean maximum exiting_tests (mkNamespace "cpu" "test_outputs") cpu_world
  = 0%Z.
Proof.
  vm_compute. repeat split; reflexivity.
Qed.

(** With a pip that fails on torch, three packages are installed and
    reported, the failure is reported, and torchaudio is not attempted. *)
Example install_stops_at_torch :
  let run := run_integration_tests.install_requirements pip_without_torch cpu_world in
  fst run = Py.Ok false /\
  stdout (snd run)
  = [Line "Installing required packages..."; Installed "chatterbox-tts";
     Installed "psutil"; Installed "numpy"; InstallFailed "torch"].
Proof.
  vm_compute. split; reflexivity.
Qed.

End SampleRuns.
